(** * Comment-to-code ratio analyzer: a shallow embedding of [main.py]

    The development follows the source file top-down:

    - [PyStr]: the [str] methods the program calls ([strip], [startswith],
      [endswith], [rfind], slicing), over Python strings seen as lists of
      Unicode code points;
    - [OsPath]: [os.path.join] and [os.path.splitext] in their POSIX flavour;
    - the scan loop of [calculate_comment_code_ratio] as a fold of the loop
      body [scan_line] over the lines of the file;
    - [analyze_directory] as a fold of the body of its double loop over the
      triples that [os.walk] yields, threading the running totals and the
      trace of the paths handed to [open];
    - [main] over the record of arguments that [setup_argparse] returns.

    Logging and the formatting of the printed lines are left out: no
    statement below depends on them.  The ratio, a Python [float], is
    carried as the exact rational it rounds. *)

From Stdlib Require Import List Bool NArith ZArith QArith Lia.
From Stdlib Require Import Strings.String Strings.Ascii.
From Stdlib Require Import Sorting.Permutation.
Import ListNotations.

Close Scope Q_scope.
Close Scope string_scope.
Open Scope list_scope.
Open Scope nat_scope.

(* ================================================================== *)
(** ** Python strings *)
(* ================================================================== *)

Module PyStr.

(** A [str] is a sequence of code points. *)
Definition char := N.
Definition str := list char.

Definition ord (a : ascii) : char := N_of_ascii a.

(** Reading of a literal of the source. *)
Fixpoint lit (s : string) : str :=
  match s with
  | EmptyString => []
  | String a s' => ord a :: lit s'
  end.

Definition char_eqb (a b : char) : bool := N.eqb a b.

Fixpoint eqb (s t : str) : bool :=
  match s, t with
  | [], [] => true
  | a :: s', b :: t' => char_eqb a b && eqb s' t'
  | _, _ => false
  end.

(** [str.isspace] on one code point: the characters [str.strip()] removes
    when called without argument. *)
Definition isspace (c : char) : bool :=
  (((0x09 <=? c) && (c <=? 0x0D))
   || ((0x1C <=? c) && (c <=? 0x20))
   || (c =? 0x85) || (c =? 0xA0) || (c =? 0x1680)
   || ((0x2000 <=? c) && (c <=? 0x200A))
   || (c =? 0x2028) || (c =? 0x2029) || (c =? 0x202F)
   || (c =? 0x205F) || (c =? 0x3000))%N.

Fixpoint lstrip (s : str) : str :=
  match s with
  | [] => []
  | c :: s' => if isspace c then lstrip s' else s
  end.

Definition rstrip (s : str) : str := rev (lstrip (rev s)).

Definition strip (s : str) : str := rstrip (lstrip s).

Fixpoint startswith (s prefix : str) {struct prefix} : bool :=
  match prefix, s with
  | [], _ => true
  | _ :: _, [] => false
  | a :: prefix', b :: s' => char_eqb b a && startswith s' prefix'
  end.

Definition endswith (s suffix : str) : bool :=
  startswith (rev s) (rev suffix).

(** Truth value of a string: [not line] is [negb (truthy line)]. *)
Definition truthy (s : str) : bool :=
  match s with
  | [] => false
  | _ :: _ => true
  end.

(** [p.rfind(c)] for a one-character [c]: the highest index at which [c]
    occurs, or [-1]. *)
Fixpoint rfind_from (i : Z) (p : str) (c : char) (found : Z) : Z :=
  match p with
  | [] => found
  | x :: p' => rfind_from (i + 1) p' c (if char_eqb x c then i else found)
  end.

Definition rfind (p : str) (c : char) : Z := rfind_from 0 p c (-1).

(** Slices [p[:i]], [p[i:]] and [p[i:j]] at non-negative indices. *)
Definition slice_to (p : str) (i : Z) : str := firstn (Z.to_nat i) p.
Definition slice_from (p : str) (i : Z) : str := skipn (Z.to_nat i) p.
Definition slice (p : str) (i j : Z) : str :=
  firstn (Z.to_nat j - Z.to_nat i) (skipn (Z.to_nat i) p).

End PyStr.

Import PyStr.

(** The five markers of the scan, and the two path separators. *)
Definition triple_single : str := lit "'''".
Definition triple_double : str := [34%N; 34%N; 34%N].
Definition hash_mark : str := lit "#".
Definition slash_slash : str := lit "//".
Definition block_open : str := lit "/*".
Definition block_close : str := lit "*/".

(* ================================================================== *)
(** ** [os.path] *)
(* ================================================================== *)

Module OsPath.

Definition sep : char := ord "/".
Definition extsep : char := ord ".".

(** [os.path.join(a, b)]. *)
Definition join (a b : str) : str :=
  if startswith b [sep] then b
  else if negb (truthy a) || endswith a [sep] then a ++ b
  else a ++ [sep] ++ b.

(** The loop of [genericpath._splitext] that skips the leading dots of the
    file name: [Some] is its early [return], [None] is falling out of the
    loop. *)
Fixpoint splitext_loop (n : nat) (p : str) (filenameIndex dotIndex : Z)
  : option (str * str) :=
  match n with
  | O => None
  | S n' =>
      if negb (eqb (slice p filenameIndex (filenameIndex + 1)) [extsep])
      then Some (slice_to p dotIndex, slice_from p dotIndex)
      else splitext_loop n' p (filenameIndex + 1) dotIndex
  end.

(** [os.path.splitext(p)]. *)
Definition splitext (p : str) : str * str :=
  let sepIndex := rfind p sep in
  let dotIndex := rfind p extsep in
  if (sepIndex <? dotIndex)%Z then
    let filenameIndex := (sepIndex + 1)%Z in
    match splitext_loop (Z.to_nat (dotIndex - filenameIndex)) p
                        filenameIndex dotIndex with
    | Some r => r
    | None => (p, [])
    end
  else (p, []).

End OsPath.

(* ================================================================== *)
(** ** The scan loop of [calculate_comment_code_ratio] *)
(* ================================================================== *)

(** The three locals of the loop. *)
Record scan_state := mk_scan {
  comment_count : nat;
  code_line_count : nat;
  in_multiline_comment : bool
}.

(** Their values before the first line. *)
Definition scan_init : scan_state := mk_scan 0 0 false.

(** One iteration of [for line in lines]. *)
Definition scan_line (st : scan_state) (line : str) : scan_state :=
  let line := strip line in
  if negb (truthy line) then st
  else if startswith line triple_single || startswith line triple_double then
    mk_scan (comment_count st + 1) (code_line_count st)
            (negb (in_multiline_comment st))
  else if in_multiline_comment st then
    mk_scan (comment_count st + 1) (code_line_count st)
            (in_multiline_comment st)
  else if startswith line hash_mark || startswith line slash_slash then
    mk_scan (comment_count st + 1) (code_line_count st)
            (in_multiline_comment st)
  else if startswith line block_open then
    mk_scan (comment_count st + 1) (code_line_count st) true
  else if endswith line block_close && in_multiline_comment st then
    mk_scan (comment_count st + 1) (code_line_count st) false
  else
    mk_scan (comment_count st) (code_line_count st + 1)
            (in_multiline_comment st).

Definition scan (lines : list str) : scan_state :=
  fold_left scan_line lines scan_init.

(** The two counts the loop leaves behind. *)
Definition line_classifier (lines : list str) : nat * nat :=
  let st := scan lines in (comment_count st, code_line_count st).

(** Python's [a / b] on two non-negative [int]s, before rounding. *)
Definition truediv (a b : nat) : Q :=
  (inject_Z (Z.of_nat a) / inject_Z (Z.of_nat b))%Q.

(** Lines 96-99. *)
Definition file_ratio (st : scan_state) : Q :=
  if 0 <? code_line_count st
  then truediv (comment_count st) (code_line_count st)
  else 0%Q.

(* ================================================================== *)
(** ** The locals of a call, as a frame *)
(* ================================================================== *)

(** Lines 64-66 as the three assignments they are, on the frame that
    holds the locals.  Python hands every call a frame of its own; the
    frame is taken here with whatever an earlier call left in it, so that
    what a call owes to these assignments can be stated. *)
Definition enter_scan (frame : scan_state) : scan_state :=
  let frame :=
    mk_scan 0 (code_line_count frame) (in_multiline_comment frame) in
  let frame :=
    mk_scan (comment_count frame) 0 (in_multiline_comment frame) in
  mk_scan (comment_count frame) (code_line_count frame) false.



(* ================================================================== *)
(** ** Reading a file *)
(* ================================================================== *)

(** The three [except] clauses of the read. *)
Inductive read_error :=
| FileNotFoundError
| PermissionError
| OtherException.

(** What [open(file_path).readlines()] does: it yields the lines, or
    raises. *)
Inductive read_result :=
| ReadOk (lines : list str)
| ReadRaises (e : read_error).

(** The file system as the program observes it. *)
Record filesystem := mk_fs {
  fs_isdir : str -> bool;
  fs_isfile : str -> bool;
  fs_walk : str -> list (str * list str * list str);
  fs_readlines : str -> read_result
}.

(** The paths handed to [open], oldest first. *)
Definition trace := list str.

(** The returned tuple; [None] is Python's [None]. *)
Definition result := (option nat * option nat * option Q)%type.

Definition no_result : result := (None, None, None).

Definition calculate_comment_code_ratio
    (fs : filesystem) (file_path : str) (tr : trace) : result * trace :=
  let tr := tr ++ [file_path] in
  match fs_readlines fs file_path with
  | ReadRaises FileNotFoundError => (no_result, tr)
  | ReadRaises PermissionError => (no_result, tr)
  | ReadRaises OtherException => (no_result, tr)
  | ReadOk lines =>
      let st := fold_left scan_line lines scan_init in
      ((Some (comment_count st), Some (code_line_count st),
        Some (file_ratio st)), tr)
  end.

(* ================================================================== *)
(** ** [analyze_directory] *)
(* ================================================================== *)

Import OsPath.

(** The three running totals. *)
Record totals := mk_totals {
  total_comment_lines : nat;
  total_code_lines : nat;
  file_count : nat
}.

Definition totals_init : totals := mk_totals 0 0 0.

(** Lines 128-130: [exclude_extensions] is truthy and holds the extension
    of the path. *)
Definition excluded (exclude_extensions : option (list str))
    (file_path : str) : bool :=
  match exclude_extensions with
  | None => false
  | Some [] => false
  | Some exts =>
      let file_extension := snd (splitext file_path) in
      existsb (eqb file_extension) exts
  end.

(** The body of the inner loop, from the path on. *)
Definition analyze_path (fs : filesystem)
    (exclude_extensions : option (list str))
    (acc : totals * trace) (file_path : str) : totals * trace :=
  if excluded exclude_extensions file_path then acc
  else if negb (fs_isfile fs file_path) then acc
  else
    let '(res, tr) := calculate_comment_code_ratio fs file_path (snd acc) in
    match res with
    | (Some comment_count, Some code_line_count, _) =>
        (mk_totals (total_comment_lines (fst acc) + comment_count)
                   (total_code_lines (fst acc) + code_line_count)
                   (file_count (fst acc) + 1),
         tr)
    | _ => (fst acc, tr)
    end.

(** The body of the inner loop. *)
Definition analyze_file (fs : filesystem)
    (exclude_extensions : option (list str)) (root : str)
    (acc : totals * trace) (file : str) : totals * trace :=
  analyze_path fs exclude_extensions acc (join root file).

(** The double loop over what [os.walk] yields. *)
Definition analyze_walk (fs : filesystem)
    (exclude_extensions : option (list str))
    (w : list (str * list str * list str))
    (acc : totals * trace) : totals * trace :=
  fold_left
    (fun acc entry =>
       let '(root, _, files) := entry in
       fold_left (analyze_file fs exclude_extensions root) files acc)
    w acc.

(** The four values of the printed summary. *)
Record summary := mk_summary {
  files_analyzed : nat;
  comment_lines : nat;
  code_lines : nat;
  overall_ratio : Q
}.

(** [None] is the early return on a path that is no directory, which
    prints nothing. *)
Definition analyze_directory (fs : filesystem) (directory_path : str)
    (exclude_extensions : option (list str)) (tr : trace)
  : option summary * trace :=
  if negb (fs_isdir fs directory_path) then (None, tr)
  else
    let '(t, tr') :=
      analyze_walk fs exclude_extensions (fs_walk fs directory_path)
                   (totals_init, tr) in
    let total_ratio :=
      if 0 <? total_code_lines t
      then truediv (total_comment_lines t) (total_code_lines t)
      else 0%Q in
    (Some (mk_summary (file_count t) (total_comment_lines t)
                      (total_code_lines t) total_ratio),
     tr').

(** The paths of a walk, in the order the double loop meets them. *)
Definition walk_paths (w : list (str * list str * list str)) : list str :=
  flat_map (fun entry => let '(root, _, files) := entry in
                         map (join root) files) w.

Definition analyze_paths (fs : filesystem)
    (exclude_extensions : option (list str))
    (paths : list str) (acc : totals * trace) : totals * trace :=
  fold_left (analyze_path fs exclude_extensions) paths acc.

(** Number of lines that are empty once stripped. *)
Definition blank_lines (lines : list str) : nat :=
  List.length (filter (fun l => negb (truthy (strip l))) lines).

(* ================================================================== *)
(** ** The scan as the specification words it *)
(* ================================================================== *)

Module Spec.

Definition starts_triple (t : str) : Prop :=
  startswith t triple_double = true \/ startswith t triple_single = true.

Definition starts_line_comment (t : str) : Prop :=
  startswith t hash_mark = true \/ startswith t slash_slash = true.

(** [rule flag t c k flag' c' k']: on the trimmed line [t], with the flag
    at [flag] and the counts at [c] and [k], the seven rules, each one
    applying only when no earlier one does, leave [flag'], [c'], [k']. *)
Inductive rule (flag : bool) (t : str) (c k : nat)
  : bool -> nat -> nat -> Prop :=
| rule_1_blank :
    t = [] ->
    rule flag t c k flag c k
| rule_2_triple :
    t <> [] -> starts_triple t ->
    rule flag t c k (negb flag) (S c) k
| rule_3_inside :
    t <> [] -> ~ starts_triple t -> flag = true ->
    rule flag t c k flag (S c) k
| rule_4_line_comment :
    t <> [] -> ~ starts_triple t -> flag <> true ->
    starts_line_comment t ->
    rule flag t c k flag (S c) k
| rule_5_block_open :
    t <> [] -> ~ starts_triple t -> flag <> true ->
    ~ starts_line_comment t -> startswith t block_open = true ->
    rule flag t c k true (S c) k
| rule_6_block_close :
    t <> [] -> ~ starts_triple t -> flag <> true ->
    ~ starts_line_comment t -> startswith t block_open <> true ->
    endswith t block_close = true /\ flag = true ->
    rule flag t c k false (S c) k
| rule_7_code :
    t <> [] -> ~ starts_triple t -> flag <> true ->
    ~ starts_line_comment t -> startswith t block_open <> true ->
    ~ (endswith t block_close = true /\ flag = true) ->
    rule flag t c k flag c (S k).

(** A single forward pass over the raw lines, each trimmed first. *)
Inductive pass : bool -> nat -> nat -> list str -> bool -> nat -> nat -> Prop :=
| pass_done : forall flag c k,
    pass flag c k [] flag c k
| pass_line : forall flag c k line rest flag1 c1 k1 flag2 c2 k2,
    rule flag (strip line) c k flag1 c1 k1 ->
    pass flag1 c1 k1 rest flag2 c2 k2 ->
    pass flag c k (line :: rest) flag2 c2 k2.

(** The pass starts with the flag false and both counts at zero. *)
Definition classifies (lines : list str) (c k : nat) : Prop :=
  exists flag, pass false 0 0 lines flag c k.

End Spec.

(* ================================================================== *)
(** ** The exclude list of [main] *)
(* ================================================================== *)

Definition comma : char := ord ",".

(** [s.split(c)] for a one-character [c]. *)
Fixpoint split_on (c : char) (s : str) : list str :=
  match s with
  | [] => [[]]
  | x :: s' =>
      if char_eqb x c then [] :: split_on c s'
      else match split_on c s' with
           | [] => [[x]]
           | w :: ws => (x :: w) :: ws
           end
  end.

(** Line 172: the list [main] hands to [analyze_directory]. *)
Definition exclude_extensions_of (exclude_extensions_str : str)
  : option (list str) :=
  if truthy exclude_extensions_str
  then Some (map strip
               (filter (fun ext => truthy (strip ext))
                       (split_on comma exclude_extensions_str)))
  else None.

(* ================================================================== *)
(** ** [main] *)
(* ================================================================== *)

(** What [setup_argparse] returns. *)
Record args := mk_args {
  arg_path : str;
  arg_exclude : str;
  arg_verbose : bool
}.

(** What [main] prints: the line of a single file (line 177), or the
    summary block of [analyze_directory]. *)
Inductive report :=
| FileReport (path : str) (comment_count code_line_count : nat) (ratio : Q)
| DirReport (s : summary).

(** How [main] ends: by returning, by [sys.exit(1)], or by the
    [TypeError] that formatting a [None] ratio with [:.2f] raises. *)
Inductive ending :=
| Returns
| Exits1
| RaisesTypeError.

Definition main (fs : filesystem) (a : args) (tr : trace)
  : (option report * ending) * trace :=
  let path := arg_path a in
  let exclude_extensions_str := arg_exclude a in
  let exclude_extensions := exclude_extensions_of exclude_extensions_str in
  if fs_isfile fs path then
    let '(res, tr') := calculate_comment_code_ratio fs path tr in
    match res with
    | (Some comment_count, Some code_line_count, Some ratio) =>
        ((Some (FileReport path comment_count code_line_count ratio),
          Returns), tr')
    | (Some _, Some _, None) => ((None, RaisesTypeError), tr')
    | _ => ((None, Exits1), tr')
    end
  else if fs_isdir fs path then
    let '(s, tr') := analyze_directory fs path exclude_extensions tr in
    ((option_map DirReport s, Returns), tr')
  else ((None, Exits1), tr).

(* ================================================================== *)
(** ** Vocabulary of the statements *)
(* ================================================================== *)

Definition read_ok (fs : filesystem) (file_path : str) : bool :=
  match fs_readlines fs file_path with
  | ReadOk _ => true
  | ReadRaises _ => false
  end.

(** The paths [analyze_path] hands to [open]. *)
Definition reaches_open (fs : filesystem)
    (exclude_extensions : option (list str)) (file_path : str) : bool :=
  negb (excluded exclude_extensions file_path) && fs_isfile fs file_path.

(** The paths that are not excluded, are regular files and are read. *)
Definition counted (fs : filesystem)
    (exclude_extensions : option (list str)) (file_path : str) : bool :=
  reaches_open fs exclude_extensions file_path && read_ok fs file_path.

(** The two counts of a file, where it can be read. *)
Definition file_counts (fs : filesystem) (file_path : str) : nat * nat :=
  match fs_readlines fs file_path with
  | ReadOk lines => line_classifier lines
  | ReadRaises _ => (0, 0)
  end.

(** Number of lines that are not empty once stripped. *)
Definition nonblank_lines (lines : list str) : nat :=
  List.length (filter (fun l => truthy (strip l)) lines).

(** The trimmed line starts with one of the two triple quotes. *)
Definition starts_triple_quote (line : str) : bool :=
  startswith (strip line) triple_single
  || startswith (strip line) triple_double.

(** The trimmed line starts with one of the five markers. *)
Definition starts_marker (line : str) : bool :=
  starts_triple_quote line
  || startswith (strip line) hash_mark
  || startswith (strip line) slash_slash
  || startswith (strip line) block_open.

Definition all_space (s : str) : Prop := Forall (fun c => isspace c = true) s.

(** An exclude entry that can be an extension: a dot and a stem with
    neither dot nor separator. *)
Definition extension_shaped (e : str) : Prop :=
  exists stem, e = extsep :: stem /\ ~ In extsep stem /\ ~ In sep stem.

(** The same files, walked in another order. *)
Definition with_walk (fs : filesystem)
    (w : list (str * list str * list str)) : filesystem :=
  mk_fs (fs_isdir fs) (fs_isfile fs) (fun _ => w) (fs_readlines fs).

(* ================================================================== *)
(** ** Worked inputs *)
(* ================================================================== *)

Definition triple_quote_lines : list str :=
  [triple_double; lit "code"; lit "code"; triple_double; lit "code"].

Definition block_comment_lines : list str :=
  [lit "/* c */"; lit "code"].

(** A small tree: a source file, a log file, a file that vanishes before
    it is read, an empty file, and a file named [.log]. *)
Module Tree.

Definition proj : str := lit "proj".
Definition a_py : str := lit "proj/a.py".
Definition b_log : str := lit "proj/b.log".
Definition gone_py : str := lit "proj/gone.py".
Definition empty_py : str := lit "proj/empty.py".
Definition dot_log : str := lit "proj/.log".

Definition names : list str :=
  [lit "a.py"; lit "b.log"; lit "gone.py"; lit "empty.py"; lit ".log"].

(** The walk of [proj], and the same walk met in the opposite order. *)
Definition w : list (str * list str * list str) := [(proj, [], names)].
Definition w' : list (str * list str * list str) := [(proj, [], rev names)].

Definition a_py_lines : list str := [lit "# hello"; lit "world"; lit "  "].

Definition fs : filesystem :=
  mk_fs
    (fun p => eqb p proj)
    (fun p => existsb (eqb p) [a_py; b_log; gone_py; empty_py; dot_log])
    (fun p => if eqb p proj then w else [])
    (fun p =>
       if eqb p a_py then ReadOk a_py_lines
       else if eqb p b_log then ReadOk [lit "started"; lit "stopped"]
       else if eqb p empty_py then ReadOk []
       else if eqb p dot_log then ReadOk [lit "// x"; lit "y"; lit "z"]
       else ReadRaises FileNotFoundError).

Definition only_log : list str := [lit ".log"].

(** Entries no extension can be equal to. *)
Definition misshapen : list str := [lit "log"; lit ".tar.gz"; lit "./x"].

(** A C file whose block comment is closed on its second line. *)
Definition c_lines : list str :=
  [lit "int a;"; lit "/* one"; lit "two */"; lit "int b;"; [];
   lit "int c;"].

(** What the traversal of [proj] prints and opens when [.log] is
    excluded. *)
Definition summary_without_logs : summary := mk_summary 3 2 3 (truediv 2 3).
Definition opened_without_logs : trace := [a_py; gone_py; empty_py; dot_log].

End Tree.

(* ================================================================== *)
(** ** Facts about the string operations *)
(* ================================================================== *)

Lemma truthy_false_iff (s : str) : truthy s = false <-> s = [].
Proof.
  destruct s; simpl; split; intro H; try reflexivity; discriminate.
Qed.

Lemma truthy_true_iff (s : str) : truthy s = true <-> s <> [].
Proof.
  destruct s; simpl; split; intro H; try reflexivity; try discriminate.
  now contradiction H.
Qed.

Lemma eqb_eq (s t : str) : eqb s t = true <-> s = t.
Proof.
  revert t; induction s as [|a s IH]; intros [|b t]; simpl;
    try (split; [discriminate | discriminate]); [tauto|].
  unfold char_eqb. rewrite andb_true_iff, N.eqb_eq, IH.
  split; [intros [-> ->]; reflexivity | intros [= -> ->]; auto].
Qed.

Lemma existsb_eqb_In (x : str) (l : list str) :
  existsb (eqb x) l = true <-> In x l.
Proof.
  rewrite existsb_exists. split.
  - intros (y & Hy & E). apply eqb_eq in E. now subst.
  - intro H. exists x. split; [assumption | now apply eqb_eq].
Qed.

(* ================================================================== *)
(** ** The loop body, case by case *)
(* ================================================================== *)

(** Splits a goal about [scan_line st line] along the tests of the loop
    body, keeping each test's outcome as an equation. *)
Ltac scan_cases st line :=
  unfold scan_line; cbv zeta;
  destruct (truthy (strip line)) eqn:Hne; cbn [negb];
  [ destruct (startswith (strip line) triple_single
              || startswith (strip line) triple_double) eqn:Htri;
    [ | destruct (in_multiline_comment st) eqn:Hin;
        [ | destruct (startswith (strip line) hash_mark
                      || startswith (strip line) slash_slash) eqn:Hline;
            [ | destruct (startswith (strip line) block_open) eqn:Hopen;
                [ | rewrite andb_false_r ] ] ] ]
  | ].

(** A line that is blank once stripped leaves the three locals alone. *)
Lemma scan_line_blank (st : scan_state) (line : str) :
  truthy (strip line) = false -> scan_line st line = st.
Proof.
  intro H. unfold scan_line. cbv zeta. rewrite H. reflexivity.
Qed.

(** Any other line adds one to exactly one of the two counts. *)
Lemma scan_line_nonblank (st : scan_state) (line : str) :
  truthy (strip line) = true ->
  (comment_count (scan_line st line) = S (comment_count st)
   /\ code_line_count (scan_line st line) = code_line_count st)
  \/ (comment_count (scan_line st line) = comment_count st
      /\ code_line_count (scan_line st line) = S (code_line_count st)).
Proof.
  intro H. scan_cases st line; try discriminate; simpl;
    rewrite Nat.add_1_r; auto.
Qed.

(** The sum of the two counts grows by one on a non-blank line and stays
    on a blank one. *)
Lemma scan_line_sum (st : scan_state) (line : str) :
  comment_count (scan_line st line) + code_line_count (scan_line st line)
  = comment_count st + code_line_count st
    + (if truthy (strip line) then 1 else 0).
Proof.
  scan_cases st line; simpl; lia.
Qed.

(** Once set, the flag is cleared by a triple-quote line only: the test
    for a closing [*/] is never reached while the flag is set. *)
Lemma only_a_triple_quote_clears_the_flag (st : scan_state) (line : str) :
  in_multiline_comment st = true ->
  in_multiline_comment (scan_line st line) = false ->
  startswith (strip line) triple_single
  || startswith (strip line) triple_double = true.
Proof.
  intros Hset Hclear. revert Hclear.
  unfold scan_line. cbv zeta.
  destruct (truthy (strip line)); cbn [negb]; [|congruence].
  destruct (startswith (strip line) triple_single
            || startswith (strip line) triple_double); [reflexivity|].
  rewrite Hset. cbn [in_multiline_comment]. congruence.
Qed.


Lemma scan_sum_from (lines : list str) (st : scan_state) :
  comment_count (fold_left scan_line lines st)
  + code_line_count (fold_left scan_line lines st)
  + blank_lines lines
  = comment_count st + code_line_count st + List.length lines.
Proof.
  revert st; induction lines as [|l lines IH]; intro st.
  - simpl. unfold blank_lines. simpl. lia.
  - cbn [fold_left]. unfold blank_lines in *. cbn [filter List.length].
    specialize (IH (scan_line st l)). rewrite scan_line_sum in IH.
    destruct (truthy (strip l)); cbn [negb List.length] in *; lia.
Qed.

Lemma blank_lines_zero_iff (lines : list str) :
  blank_lines lines = 0 <-> (forall l, In l lines -> strip l <> []).
Proof.
  unfold blank_lines. induction lines as [|l lines IH]; simpl.
  - split; [intros _ ? [] | reflexivity].
  - destruct (truthy (strip l)) eqn:E; cbn [negb List.length].
    + rewrite IH. split.
      * intros H x [<- | Hx]; [now apply truthy_true_iff | now apply H].
      * intros H x Hx. apply H. now right.
    + split; [discriminate|]. intro H.
      apply truthy_false_iff in E. exfalso. apply (H l); auto.
Qed.

(* ================================================================== *)
(** ** The loop against the seven rules *)
(* ================================================================== *)

Lemma starts_triple_iff (t : str) :
  Spec.starts_triple t
  <-> startswith t triple_single || startswith t triple_double = true.
Proof.
  unfold Spec.starts_triple. rewrite orb_true_iff. tauto.
Qed.

Lemma starts_line_comment_iff (t : str) :
  Spec.starts_line_comment t
  <-> startswith t hash_mark || startswith t slash_slash = true.
Proof.
  unfold Spec.starts_line_comment. rewrite orb_true_iff. tauto.
Qed.

(** The loop body obeys the rules. *)
Lemma scan_line_obeys_rule (st : scan_state) (line : str) :
  Spec.rule (in_multiline_comment st) (strip line)
            (comment_count st) (code_line_count st)
            (in_multiline_comment (scan_line st line))
            (comment_count (scan_line st line))
            (code_line_count (scan_line st line)).
Proof.
  scan_cases st line; cbn [in_multiline_comment comment_count code_line_count];
    rewrite ?Nat.add_1_r.
  - apply Spec.rule_2_triple;
      [now apply truthy_true_iff | now apply starts_triple_iff].
  - apply Spec.rule_3_inside;
      [now apply truthy_true_iff | rewrite starts_triple_iff; congruence
      | reflexivity].
  - apply Spec.rule_4_line_comment;
      [now apply truthy_true_iff | rewrite starts_triple_iff; congruence
      | discriminate | now apply starts_line_comment_iff].
  - apply Spec.rule_5_block_open;
      [now apply truthy_true_iff | rewrite starts_triple_iff; congruence
      | discriminate | rewrite starts_line_comment_iff; congruence
      | assumption].
  - apply Spec.rule_7_code;
      [now apply truthy_true_iff | rewrite starts_triple_iff; congruence
      | discriminate | rewrite starts_line_comment_iff; congruence
      | congruence | intros [_ ?]; discriminate].
  - apply Spec.rule_1_blank. now apply truthy_false_iff.
Qed.

(** The rules leave no choice: they determine the next flag and counts. *)
Lemma rule_functional (flag : bool) (t : str) (c k : nat)
    (f1 f2 : bool) (c1 c2 k1 k2 : nat) :
  Spec.rule flag t c k f1 c1 k1 ->
  Spec.rule flag t c k f2 c2 k2 ->
  f1 = f2 /\ c1 = c2 /\ k1 = k2.
Proof.
  intros H1 H2.
  destruct H1; destruct H2; auto; try contradiction; try congruence;
    try tauto;
    match goal with
    | H : _ /\ _ |- _ => destruct H; congruence
    end.
Qed.

Lemma rule_scan_line (st : scan_state) (line : str)
    (f' : bool) (c' k' : nat) :
  Spec.rule (in_multiline_comment st) (strip line)
            (comment_count st) (code_line_count st) f' c' k' ->
  scan_line st line = mk_scan c' k' f'.
Proof.
  intro H.
  destruct (rule_functional _ _ _ _ _ _ _ _ _ _ H
              (scan_line_obeys_rule st line)) as (-> & -> & ->).
  now destruct (scan_line st line).
Qed.

Lemma pass_fold (lines : list str) :
  forall flag c k flag' c' k',
    Spec.pass flag c k lines flag' c' k'
    <-> fold_left scan_line lines (mk_scan c k flag) = mk_scan c' k' flag'.
Proof.
  induction lines as [|line rest IH]; intros flag c k flag' c' k'.
  - simpl. split.
    + intro H. inversion H; subst. reflexivity.
    + intros [= -> -> ->]. constructor.
  - cbn [fold_left]. split.
    + intro H. inversion H; subst.
      match goal with
      | Hr : Spec.rule _ _ _ _ _ _ _ |- _ =>
          apply (rule_scan_line (mk_scan c k flag)) in Hr; rewrite Hr
      end.
      now apply IH.
    + intro H.
      pose proof (scan_line_obeys_rule (mk_scan c k flag) line) as Hr.
      destruct (scan_line (mk_scan c k flag) line) as [c1 k1 f1] eqn:E.
      cbn [in_multiline_comment comment_count code_line_count] in Hr.
      eapply Spec.pass_line; [exact Hr | now apply IH].
Qed.

(** C1. The scan loop is the single forward pass of the seven rules: from
    the flag false and both counts at zero, the rules, applied in order to
    each trimmed line, lead to the counts [c] and [k] exactly when the
    loop of [calculate_comment_code_ratio] leaves [c] comment lines and
    [k] code lines. *)
Theorem line_classifier_is_the_seven_rule_pass :
  forall (lines : list str) (c k : nat),
    Spec.classifies lines c k <-> line_classifier lines = (c, k).
Proof.
  intros lines c k. unfold Spec.classifies, line_classifier, scan, scan_init.
  split.
  - intros [flag H]. apply pass_fold in H. rewrite H. reflexivity.
  - intro H.
    destruct (fold_left scan_line lines (mk_scan 0 0 false))
      as [c0 k0 f0] eqn:E.
    cbn in H. injection H as -> ->.
    exists f0. now apply pass_fold.
Qed.

(* ================================================================== *)
(** ** Two worked inputs *)
(* ================================================================== *)

(** C2, as stated, fails: on the five lines
    [triple-quote, code, code, triple-quote, code] the classifier does not
    return 2 comment lines and 3 code lines. *)
Lemma triple_quote_lines_not_2_3 :
  line_classifier triple_quote_lines <> (2, 3).
Proof.
  vm_compute. discriminate.
Qed.

(** C2, amended. On those five lines the classifier returns 4 comment
    lines and 1 code line: both delimiter lines and the two lines between
    them count as comments, and only the last line counts as code. *)
Theorem triple_quote_lines_4_1 :
  line_classifier triple_quote_lines = (4, 1).
Proof.
  reflexivity.
Qed.

(** C3, as stated, fails: on the two lines [/* c */, code] the classifier
    does not return 1 comment line and 0 code lines. *)
Lemma block_comment_lines_not_1_0 :
  line_classifier block_comment_lines <> (1, 0).
Proof.
  vm_compute. discriminate.
Qed.

(** C3, amended. On those two lines the classifier returns 2 comment
    lines and 0 code lines: the flag is set after the first line, so the
    second line is counted as a comment too. *)
Theorem block_comment_lines_2_0 :
  line_classifier block_comment_lines = (2, 0)
  /\ in_multiline_comment (scan [lit "/* c */"]) = true
  /\ scan_line (scan [lit "/* c */"]) (lit "code")
     = mk_scan 2 0 true.
Proof.
  repeat split.
Qed.

(* ================================================================== *)
(** ** Counting invariant *)
(* ================================================================== *)

(** C4. Comment lines, code lines and blank lines add up to the number of
    lines of the file; hence comment lines plus code lines never exceed
    it, and reach it exactly when no line is blank once stripped. *)
Theorem counts_and_blank_lines_partition_the_file :
  forall lines : list str,
    fst (line_classifier lines) + snd (line_classifier lines)
      + blank_lines lines = List.length lines
    /\ fst (line_classifier lines) + snd (line_classifier lines)
       <= List.length lines
    /\ (fst (line_classifier lines) + snd (line_classifier lines)
          = List.length lines
        <-> blank_lines lines = 0)
    /\ (blank_lines lines = 0
        <-> forall l, In l lines -> strip l <> []).
Proof.
  intro lines. unfold line_classifier, scan. cbn [fst snd].
  pose proof (scan_sum_from lines scan_init) as H. cbn in H.
  repeat split; try lia; apply blank_lines_zero_iff.
Qed.

(* ================================================================== *)
(** ** The ratio *)
(* ================================================================== *)

Lemma truediv_nonneg (a b : nat) : (0 <= truediv a b)%Q.
Proof.
  unfold truediv, Qdiv. apply Qmult_le_0_compat.
  - change 0%Q with (inject_Z 0). rewrite <- Zle_Qle. lia.
  - apply Qinv_le_0_compat.
    change 0%Q with (inject_Z 0). rewrite <- Zle_Qle. lia.
Qed.

Lemma file_ratio_nonneg (st : scan_state) : (0 <= file_ratio st)%Q.
Proof.
  unfold file_ratio. destruct (0 <? code_line_count st).
  - apply truediv_nonneg.
  - apply Qle_refl.
Qed.

Lemma calculate_on_lines (fs : filesystem) (file_path : str) (tr : trace)
    (lines : list str) :
  fs_readlines fs file_path = ReadOk lines ->
  calculate_comment_code_ratio fs file_path tr
  = ((Some (comment_count (scan lines)), Some (code_line_count (scan lines)),
      Some (file_ratio (scan lines))), tr ++ [file_path]).
Proof.
  intro H. unfold calculate_comment_code_ratio. rewrite H. reflexivity.
Qed.

Lemma calculate_on_error (fs : filesystem) (file_path : str) (tr : trace)
    (e : read_error) :
  fs_readlines fs file_path = ReadRaises e ->
  calculate_comment_code_ratio fs file_path tr
  = (no_result, tr ++ [file_path]).
Proof.
  intro H. unfold calculate_comment_code_ratio. rewrite H.
  now destruct e.
Qed.

(** C5. For a file that was read, the returned ratio is the quotient of
    the comment count by the code count when the code count is positive,
    and exactly zero when the code count is zero, whatever the comment
    count; so it is never negative.  The overall ratio of a directory
    summary follows the same policy on the totals. *)
Theorem ratio_follows_the_zero_code_policy
    (fs : filesystem) (file_path : str) (lines : list str) (tr : trace)
    (directory_path : str) (exclude_extensions : option (list str))
    (tr1 tr2 : trace) (s : summary) :
  fs_readlines fs file_path = ReadOk lines ->
  analyze_directory fs directory_path exclude_extensions tr1 = (Some s, tr2) ->
  (exists c k r,
      fst (calculate_comment_code_ratio fs file_path tr)
        = (Some c, Some k, Some r)
      /\ (c, k) = line_classifier lines
      /\ (0 < k -> r = truediv c k)
      /\ (k = 0 -> r = 0%Q)
      /\ (0 <= r)%Q)
  /\ (0 < code_lines s ->
      overall_ratio s = truediv (comment_lines s) (code_lines s))
  /\ (code_lines s = 0 -> overall_ratio s = 0%Q)
  /\ (0 <= overall_ratio s)%Q.
Proof.
  intros Hread Hdir. split.
  - exists (comment_count (scan lines)), (code_line_count (scan lines)),
      (file_ratio (scan lines)).
    rewrite (calculate_on_lines _ _ _ _ Hread). cbn [fst].
    repeat split.
    + intro Hk. unfold file_ratio.
      apply Nat.ltb_lt in Hk. now rewrite Hk.
    + intro Hk. unfold file_ratio. now rewrite Hk.
    + apply file_ratio_nonneg.
  - unfold analyze_directory in Hdir.
    destruct (negb (fs_isdir fs directory_path)); [discriminate|].
    destruct (analyze_walk fs exclude_extensions (fs_walk fs directory_path)
                (totals_init, tr1)) as [t tr'].
    injection Hdir as <- _. cbn [code_lines comment_lines overall_ratio].
    repeat split.
    + intro Hk. apply Nat.ltb_lt in Hk. now rewrite Hk.
    + intro Hk. now rewrite Hk.
    + destruct (0 <? total_code_lines t);
        [apply truediv_nonneg | apply Qle_refl].
Qed.

(* ================================================================== *)
(** ** Failure *)
(* ================================================================== *)

(** C6. Line content never makes the classifier fail: a blank line leaves
    both counts alone and every other line adds one to exactly one of
    them, so every file that was read gets three values.  A read that
    raises, whichever the exception, yields [(None, None, None)], which
    differs from the three zeros returned for an empty file. *)
Theorem classifier_fails_only_on_read
    (fs : filesystem) (file_path unreadable empty_file : str)
    (lines : list str) (e : read_error) (tr : trace) :
  fs_readlines fs file_path = ReadOk lines ->
  fs_readlines fs unreadable = ReadRaises e ->
  fs_readlines fs empty_file = ReadOk [] ->
  (forall st line,
      (strip line = [] /\ scan_line st line = st)
      \/ (strip line <> []
          /\ comment_count (scan_line st line) = S (comment_count st)
          /\ code_line_count (scan_line st line) = code_line_count st)
      \/ (strip line <> []
          /\ comment_count (scan_line st line) = comment_count st
          /\ code_line_count (scan_line st line) = S (code_line_count st)))
  /\ fst (calculate_comment_code_ratio fs file_path tr)
     = (Some (fst (line_classifier lines)), Some (snd (line_classifier lines)),
        Some (file_ratio (scan lines)))
  /\ fst (calculate_comment_code_ratio fs unreadable tr)
     = (None, None, None)
  /\ fst (calculate_comment_code_ratio fs empty_file tr)
     = (Some 0, Some 0, Some 0%Q)
  /\ fst (calculate_comment_code_ratio fs unreadable tr)
     <> fst (calculate_comment_code_ratio fs empty_file tr).
Proof.
  intros Hok Herr Hempty.
  rewrite (calculate_on_lines _ _ _ _ Hok),
          (calculate_on_error _ _ _ _ Herr),
          (calculate_on_lines _ _ _ _ Hempty).
  cbn [fst]. repeat split; try discriminate.
  intros st line. destruct (truthy (strip line)) eqn:E.
  - right. apply truthy_true_iff in E as E'.
    destruct (scan_line_nonblank st line E) as [[? ?] | [? ?]]; auto.
  - left. split; [now apply truthy_false_iff | now apply scan_line_blank].
Qed.

(* ================================================================== *)
(** ** The body of the directory loop, case by case *)
(* ================================================================== *)

Section AnalyzePath.

Variable fs : filesystem.
Variable exclude_extensions : option (list str).

Lemma analyze_path_excluded (acc : totals * trace) (p : str) :
  excluded exclude_extensions p = true ->
  analyze_path fs exclude_extensions acc p = acc.
Proof.
  intro H. unfold analyze_path. now rewrite H.
Qed.

Lemma analyze_path_not_file (acc : totals * trace) (p : str) :
  fs_isfile fs p = false ->
  analyze_path fs exclude_extensions acc p = acc.
Proof.
  intro H. unfold analyze_path. rewrite H.
  now destruct (excluded exclude_extensions p).
Qed.

Lemma analyze_path_read_raises (acc : totals * trace) (p : str)
    (e : read_error) :
  excluded exclude_extensions p = false ->
  fs_isfile fs p = true ->
  fs_readlines fs p = ReadRaises e ->
  analyze_path fs exclude_extensions acc p = (fst acc, snd acc ++ [p]).
Proof.
  intros Hx Hf Hr. unfold analyze_path. rewrite Hx, Hf. cbn [negb].
  now rewrite (calculate_on_error _ _ _ _ Hr).
Qed.

Lemma analyze_path_read_ok (acc : totals * trace) (p : str)
    (lines : list str) :
  excluded exclude_extensions p = false ->
  fs_isfile fs p = true ->
  fs_readlines fs p = ReadOk lines ->
  analyze_path fs exclude_extensions acc p
  = (mk_totals
       (total_comment_lines (fst acc) + fst (line_classifier lines))
       (total_code_lines (fst acc) + snd (line_classifier lines))
       (file_count (fst acc) + 1),
     snd acc ++ [p]).
Proof.
  intros Hx Hf Hr. unfold analyze_path. rewrite Hx, Hf. cbn [negb].
  now rewrite (calculate_on_lines _ _ _ _ Hr).
Qed.

(** What one path adds to the totals and to the trace. *)
Lemma analyze_path_step (acc : totals * trace) (p : str) :
  analyze_path fs exclude_extensions acc p
  = (if counted fs exclude_extensions p
     then mk_totals
            (total_comment_lines (fst acc) + fst (file_counts fs p))
            (total_code_lines (fst acc) + snd (file_counts fs p))
            (file_count (fst acc) + 1)
     else fst acc,
     if reaches_open fs exclude_extensions p
     then snd acc ++ [p] else snd acc).
Proof.
  unfold counted, reaches_open, read_ok, file_counts.
  destruct (excluded exclude_extensions p) eqn:Hx.
  - rewrite analyze_path_excluded by assumption. now destruct acc.
  - destruct (fs_isfile fs p) eqn:Hf.
    + destruct (fs_readlines fs p) as [lines | e] eqn:Hr.
      * now rewrite (analyze_path_read_ok _ _ lines).
      * now rewrite (analyze_path_read_raises _ _ e).
    + rewrite analyze_path_not_file by assumption. now destruct acc.
Qed.

Lemma analyze_paths_totals (paths : list str) :
  forall acc : totals * trace,
    fst (analyze_paths fs exclude_extensions paths acc)
    = mk_totals
        (total_comment_lines (fst acc)
         + list_sum (map (fun p => fst (file_counts fs p))
                         (filter (counted fs exclude_extensions) paths)))
        (total_code_lines (fst acc)
         + list_sum (map (fun p => snd (file_counts fs p))
                         (filter (counted fs exclude_extensions) paths)))
        (file_count (fst acc)
         + List.length (filter (counted fs exclude_extensions) paths)).
Proof.
  unfold analyze_paths.
  induction paths as [|p paths IH]; intro acc; cbn [fold_left filter].
  - cbn. rewrite !Nat.add_0_r. now destruct (fst acc).
  - rewrite IH, analyze_path_step. cbn [fst].
    destruct (counted fs exclude_extensions p);
      unfold list_sum;
      cbn [map fold_right List.length total_comment_lines
           total_code_lines file_count];
      f_equal; lia.
Qed.

Lemma analyze_paths_trace (paths : list str) :
  forall acc : totals * trace,
    snd (analyze_paths fs exclude_extensions paths acc)
    = snd acc ++ filter (reaches_open fs exclude_extensions) paths.
Proof.
  unfold analyze_paths.
  induction paths as [|p paths IH]; intro acc; cbn [fold_left filter].
  - now rewrite app_nil_r.
  - rewrite IH, analyze_path_step. cbn [snd].
    destruct (reaches_open fs exclude_extensions p);
      [now rewrite <- app_assoc | reflexivity].
Qed.

Lemma analyze_file_fold (root : str) (files : list str) :
  forall acc : totals * trace,
    fold_left (analyze_file fs exclude_extensions root) files acc
    = analyze_paths fs exclude_extensions (map (join root) files) acc.
Proof.
  unfold analyze_paths.
  induction files as [|f files IH]; intro acc; [reflexivity|].
  cbn [fold_left map]. now rewrite IH.
Qed.

(** The double loop is one loop over the paths of the walk. *)
Lemma analyze_walk_paths (w : list (str * list str * list str)) :
  forall acc : totals * trace,
    analyze_walk fs exclude_extensions w acc
    = analyze_paths fs exclude_extensions (walk_paths w) acc.
Proof.
  unfold analyze_walk.
  induction w as [|[[root dirs] files] w IH]; intro acc; [reflexivity|].
  cbn [fold_left walk_paths flat_map].
  rewrite IH, analyze_file_fold. unfold analyze_paths.
  now rewrite fold_left_app.
Qed.

End AnalyzePath.

Lemma Permutation_sum_filter {A : Type} (f : A -> nat) (g : A -> bool)
    (l l' : list A) :
  Permutation l l' ->
  list_sum (map f (filter g l)) = list_sum (map f (filter g l')).
Proof.
  induction 1 as [|x l l' _ IH|x y l|l l' l'' _ IH1 _ IH2]; cbn [filter].
  - reflexivity.
  - destruct (g x); unfold list_sum in *; cbn [map fold_right]; lia.
  - destruct (g x), (g y); unfold list_sum in *; cbn [map fold_right]; lia.
  - congruence.
Qed.

Lemma Permutation_length_filter {A : Type} (g : A -> bool) (l l' : list A) :
  Permutation l l' ->
  List.length (filter g l) = List.length (filter g l').
Proof.
  induction 1 as [|x l l' _ IH|x y l|l l' l'' _ IH1 _ IH2]; cbn [filter].
  - reflexivity.
  - destruct (g x); cbn [List.length]; lia.
  - destruct (g x), (g y); reflexivity.
  - congruence.
Qed.

Lemma excluded_iff (exts : list str) (p : str) :
  excluded (Some exts) p = true <-> In (snd (splitext p)) exts.
Proof.
  unfold excluded. destruct exts as [|x exts].
  - split; [discriminate | intros []].
  - apply existsb_eqb_In.
Qed.

(* ================================================================== *)
(** ** Aggregation *)
(* ================================================================== *)

(** C7. In a directory traversal, a file whose read raises leaves the
    totals and the file count as they were and the loop goes on with the
    files after it; a file that is read adds its two counts to the totals
    and one to the file count.  So the aggregate is the sum of the
    per-file counts over the files that are not excluded, are regular
    files and are read, and it is the same for every order in which the
    walk yields the paths. *)
Theorem aggregate_sums_the_files_that_were_read
    (fs : filesystem) (exclude_extensions : option (list str))
    (w w' : list (str * list str * list str))
    (acc : totals * trace) (tr : trace)
    (failing good directory_path : str) (rest : list str)
    (e : read_error) (lines : list str) :
  excluded exclude_extensions failing = false ->
  fs_isfile fs failing = true ->
  fs_readlines fs failing = ReadRaises e ->
  excluded exclude_extensions good = false ->
  fs_isfile fs good = true ->
  fs_readlines fs good = ReadOk lines ->
  Permutation (walk_paths w) (walk_paths w') ->
  fst (analyze_path fs exclude_extensions acc failing) = fst acc
  /\ analyze_paths fs exclude_extensions (failing :: rest) acc
     = analyze_paths fs exclude_extensions rest
         (fst acc, snd acc ++ [failing])
  /\ fst (analyze_path fs exclude_extensions acc good)
     = mk_totals
         (total_comment_lines (fst acc) + fst (line_classifier lines))
         (total_code_lines (fst acc) + snd (line_classifier lines))
         (file_count (fst acc) + 1)
  /\ fst (analyze_walk fs exclude_extensions w (totals_init, tr))
     = mk_totals
         (list_sum (map (fun p => fst (file_counts fs p))
                        (filter (counted fs exclude_extensions)
                                (walk_paths w))))
         (list_sum (map (fun p => snd (file_counts fs p))
                        (filter (counted fs exclude_extensions)
                                (walk_paths w))))
         (List.length (filter (counted fs exclude_extensions)
                              (walk_paths w)))
  /\ fst (analyze_walk fs exclude_extensions w (totals_init, tr))
     = fst (analyze_walk fs exclude_extensions w' (totals_init, tr))
  /\ fst (analyze_directory (with_walk fs w) directory_path
                            exclude_extensions tr)
     = fst (analyze_directory (with_walk fs w') directory_path
                              exclude_extensions tr).
Proof.
  intros Hfx Hff Hfr Hgx Hgf Hgr Hperm.
  assert (Hsum : forall v,
             fst (analyze_walk fs exclude_extensions v (totals_init, tr))
             = mk_totals
                 (list_sum (map (fun p => fst (file_counts fs p))
                                (filter (counted fs exclude_extensions)
                                        (walk_paths v))))
                 (list_sum (map (fun p => snd (file_counts fs p))
                                (filter (counted fs exclude_extensions)
                                        (walk_paths v))))
                 (List.length (filter (counted fs exclude_extensions)
                                      (walk_paths v)))).
  { intro v. rewrite analyze_walk_paths, analyze_paths_totals.
    reflexivity. }
  assert (Horder :
            fst (analyze_walk fs exclude_extensions w (totals_init, tr))
            = fst (analyze_walk fs exclude_extensions w' (totals_init, tr))).
  { rewrite !Hsum.
    rewrite (Permutation_sum_filter _ _ _ _ Hperm).
    rewrite (Permutation_sum_filter (fun p => snd (file_counts fs p))
               _ _ _ Hperm).
    now rewrite (Permutation_length_filter _ _ _ Hperm). }
  repeat split.
  - now rewrite (analyze_path_read_raises _ _ _ _ e).
  - unfold analyze_paths. cbn [fold_left].
    now rewrite (analyze_path_read_raises _ _ _ _ e).
  - now rewrite (analyze_path_read_ok _ _ _ _ lines).
  - apply Hsum.
  - exact Horder.
  - unfold analyze_directory, with_walk. cbn [fs_isdir fs_walk].
    destruct (negb (fs_isdir fs directory_path)); [reflexivity|].
    change (mk_fs (fs_isdir fs) (fs_isfile fs) (fun _ => w)
                  (fs_readlines fs)) with (with_walk fs w).
    change (mk_fs (fs_isdir fs) (fs_isfile fs) (fun _ => w')
                  (fs_readlines fs)) with (with_walk fs w').
    assert (Hw : forall v u a,
               fst (analyze_walk (with_walk fs v) exclude_extensions u a)
               = fst (analyze_walk fs exclude_extensions u a)).
    { intros v u a. rewrite !analyze_walk_paths, !analyze_paths_totals.
      reflexivity. }
    pose proof (Hw w w (totals_init, tr)) as H1.
    pose proof (Hw w' w' (totals_init, tr)) as H2.
    destruct (analyze_walk (with_walk fs w) exclude_extensions w
                (totals_init, tr)) as [t1 tr1].
    destruct (analyze_walk (with_walk fs w') exclude_extensions w'
                (totals_init, tr)) as [t2 tr2].
    cbn [fst] in *. rewrite H1, H2, Horder. reflexivity.
Qed.

(* ================================================================== *)
(** ** Exclusion by extension *)
(* ================================================================== *)

Lemma analyze_paths_drop_path (fs : filesystem)
    (exclude_extensions : option (list str)) (file_path : str)
    (paths : list str) :
  excluded exclude_extensions file_path = true ->
  forall acc : totals * trace,
    analyze_paths fs exclude_extensions paths acc
    = analyze_paths fs exclude_extensions
        (filter (fun p => negb (eqb p file_path)) paths) acc.
Proof.
  intro Hx. unfold analyze_paths.
  induction paths as [|p paths IH]; intro acc; [reflexivity|].
  cbn [fold_left filter].
  destruct (eqb p file_path) eqn:E; cbn [negb fold_left].
  - apply eqb_eq in E. subst p.
    rewrite analyze_path_excluded by assumption. apply IH.
  - apply IH.
Qed.

(** C8. A file whose extension, as [os.path.splitext] gives it, is equal
    to a member of the exclude list is skipped before it is read: the
    totals, the file count and the trace of opened paths stay as they
    were, the path is opened nowhere in the traversal, and the traversal
    ends as it would without the file.  The test is plain equality of
    strings, so it tells upper from lower case and needs the leading
    dot. *)
Theorem excluded_extension_is_skipped_unread
    (fs : filesystem) (exts : list str)
    (w : list (str * list str * list str))
    (acc : totals * trace) (file_path : str) :
  In (snd (splitext file_path)) exts ->
  ~ In file_path (snd acc) ->
  excluded (Some exts) file_path = true
  /\ analyze_path fs (Some exts) acc file_path = acc
  /\ ~ In file_path (snd (analyze_walk fs (Some exts) w acc))
  /\ analyze_walk fs (Some exts) w acc
     = analyze_paths fs (Some exts)
         (filter (fun p => negb (eqb p file_path)) (walk_paths w)) acc
  /\ (forall p, excluded (Some exts) p = true
                <-> In (snd (splitext p)) exts)
  /\ excluded (Some [lit ".log"]) (lit "proj/b.LOG") = false
  /\ excluded (Some [lit "log"]) (lit "proj/b.log") = false.
Proof.
  intros Hin Hfresh.
  assert (Hx : excluded (Some exts) file_path = true)
    by now apply excluded_iff.
  repeat split.
  - exact Hx.
  - now apply analyze_path_excluded.
  - rewrite analyze_walk_paths, analyze_paths_trace.
    intro H. apply in_app_or in H. destruct H as [H | H]; [now auto|].
    apply filter_In in H. destruct H as [_ H].
    unfold reaches_open in H. rewrite Hx in H. discriminate.
  - rewrite analyze_walk_paths. now apply analyze_paths_drop_path.
  - now apply excluded_iff.
  - now apply excluded_iff.
Qed.

(* ================================================================== *)
(** ** File names that are one dot and a stem *)
(* ================================================================== *)

Lemma rfind_from_app (a b : str) (c : char) :
  forall (i found : Z),
    rfind_from i (a ++ b) c found
    = rfind_from (i + Z.of_nat (List.length a)) b c (rfind_from i a c found).
Proof.
  induction a as [|x a IH]; intros i found; cbn [app rfind_from List.length].
  - now rewrite Z.add_0_r.
  - rewrite IH. f_equal. lia.
Qed.

Lemma rfind_from_absent (p : str) (c : char) :
  ~ In c p -> forall i found, rfind_from i p c found = found.
Proof.
  induction p as [|x p IH]; intros Hc i found; cbn [rfind_from];
    [reflexivity|].
  rewrite IH by (intro; apply Hc; now right).
  unfold char_eqb. destruct (N.eqb_spec x c) as [->|_]; [|reflexivity].
  exfalso. apply Hc. now left.
Qed.

Lemma sep_is_not_extsep : sep <> extsep.
Proof.
  discriminate.
Qed.

(** After a separator, a dot and a stem with neither dot nor separator
    make a name without extension. *)
Lemma splitext_after_sep (q stem : str) :
  ~ In sep stem -> ~ In extsep stem ->
  splitext (q ++ sep :: extsep :: stem)
  = (q ++ sep :: extsep :: stem, []).
Proof.
  intros Hs Hd. unfold splitext, rfind.
  assert (Es : rfind_from 0 (q ++ sep :: extsep :: stem) sep (-1)
               = Z.of_nat (List.length q)).
  { rewrite rfind_from_app. cbn [rfind_from]. unfold char_eqb.
    rewrite N.eqb_refl.
    destruct (N.eqb_spec extsep sep) as [E|_];
      [now contradiction sep_is_not_extsep|].
    now rewrite rfind_from_absent. }
  assert (Ed : rfind_from 0 (q ++ sep :: extsep :: stem) extsep (-1)
               = (Z.of_nat (List.length q) + 1)%Z).
  { rewrite rfind_from_app. cbn [rfind_from]. unfold char_eqb.
    rewrite N.eqb_refl. rewrite rfind_from_absent by assumption.
    lia. }
  cbv zeta. rewrite Es, Ed.
  replace (Z.of_nat (List.length q) <? Z.of_nat (List.length q) + 1)%Z
    with true by (symmetry; apply Z.ltb_lt; lia).
  now rewrite Z.sub_diag.
Qed.

(** The same at the very start of the path. *)
Lemma splitext_at_start (stem : str) :
  ~ In sep stem -> ~ In extsep stem ->
  splitext (extsep :: stem) = (extsep :: stem, []).
Proof.
  intros Hs Hd. unfold splitext, rfind. cbn [rfind_from]. unfold char_eqb.
  rewrite N.eqb_refl.
  destruct (N.eqb_spec extsep sep) as [E|_];
    [now contradiction sep_is_not_extsep|].
  rewrite !rfind_from_absent by assumption. reflexivity.
Qed.

Lemma endswith_sep_inv (a : str) :
  endswith a [sep] = true -> exists q, a = q ++ [sep].
Proof.
  unfold endswith. cbn [rev app].
  destruct (rev a) as [|x r] eqn:E; cbn [startswith]; [discriminate|].
  rewrite andb_true_r. unfold char_eqb. intro H. apply N.eqb_eq in H.
  subst x. exists (rev r).
  rewrite <- (rev_involutive a), E. reflexivity.
Qed.

Lemma splitext_join_dot_name (root stem : str) :
  ~ In sep stem -> ~ In extsep stem ->
  splitext (join root (extsep :: stem)) = (join root (extsep :: stem), []).
Proof.
  intros Hs Hd. unfold join. cbn [startswith]. unfold char_eqb.
  destruct (N.eqb_spec extsep sep) as [E|_];
    [now contradiction sep_is_not_extsep|].
  cbn [andb].
  destruct root as [|r0 root'] eqn:Eroot; cbn [truthy negb orb].
  - now apply splitext_at_start.
  - destruct (endswith (r0 :: root') [sep]) eqn:Ee.
    + destruct (endswith_sep_inv _ Ee) as [q ->].
      rewrite <- app_assoc. cbn [app]. now apply splitext_after_sep.
    + cbn [app]. change (r0 :: root' ++ sep :: extsep :: stem)
        with ((r0 :: root') ++ sep :: extsep :: stem).
      now apply splitext_after_sep.
Qed.

(** The list [main] builds from the command line holds no empty string. *)
Lemma exclude_extensions_of_nonempty (s : str) (exts : list str) :
  exclude_extensions_of s = Some exts -> ~ In [] exts.
Proof.
  unfold exclude_extensions_of. destruct (truthy s); [|discriminate].
  intros [= <-] H. apply in_map_iff in H. destruct H as (x & Hx & Hin).
  apply filter_In in Hin. destruct Hin as [_ Hin].
  rewrite Hx in Hin. discriminate.
Qed.

(** C10. A file whose whole name is a dot followed by a stem, such as
    [.log], has the empty extension; whether or not that name is a member
    of the exclude list, the file is not skipped: it is skipped only when
    the list holds the empty string, which the list built by [main] never
    does.  Otherwise it is handled as it would be with no exclusion at
    all, and is opened when it is a regular file. *)
Theorem dot_name_is_not_excluded_by_its_name
    (fs : filesystem) (root stem : str) (exts : list str)
    (acc : totals * trace) :
  ~ In sep stem ->
  ~ In extsep stem ->
  ~ In [] exts ->
  fs_isfile fs (join root (extsep :: stem)) = true ->
  splitext (join root (extsep :: stem)) = (join root (extsep :: stem), [])
  /\ (forall exts' : list str,
         excluded (Some exts') (join root (extsep :: stem)) = true
         <-> In [] exts')
  /\ excluded (Some exts) (join root (extsep :: stem)) = false
  /\ analyze_path fs (Some exts) acc (join root (extsep :: stem))
     = analyze_path fs None acc (join root (extsep :: stem))
  /\ snd (analyze_path fs (Some exts) acc (join root (extsep :: stem)))
     = snd acc ++ [join root (extsep :: stem)]
  /\ (forall (s : str) (exts' : list str),
         exclude_extensions_of s = Some exts' ->
                      excluded (Some exts') (join root (extsep :: stem))
                      = false).
Proof.
  intros Hs Hd Hempty Hfile.
  pose proof (splitext_join_dot_name root stem Hs Hd) as Hext.
  assert (Hiff : forall exts' : list str,
             excluded (Some exts') (join root (extsep :: stem)) = true
             <-> In [] exts').
  { intro exts'. rewrite excluded_iff, Hext. reflexivity. }
  assert (Hx : forall exts' : list str, ~ In [] exts' ->
             excluded (Some exts') (join root (extsep :: stem)) = false).
  { intros exts' H.
    destruct (excluded (Some exts') (join root (extsep :: stem))) eqn:E;
      [|reflexivity].
    apply Hiff in E. contradiction. }
  split; [exact Hext|].
  split; [exact Hiff|].
  split; [now apply Hx|].
  split; [|split].
  - unfold analyze_path. rewrite (Hx exts Hempty). reflexivity.
  - rewrite analyze_path_step. cbn [snd]. unfold reaches_open.
    now rewrite (Hx exts Hempty), Hfile.
  - intros s exts' H. apply Hx.
    now apply (exclude_extensions_of_nonempty s).
Qed.

(* ================================================================== *)
(** ** One invocation does not see another *)
(* ================================================================== *)

(** Within one file the flag carries from line to line: a line after an
    opening delimiter is a comment line, while the same line in a file of
    its own is a code line. *)
Example flag_lives_within_one_file :
  line_classifier [triple_double; lit "code"] = (2, 0)
  /\ line_classifier [triple_double] = (1, 0)
  /\ line_classifier [lit "code"] = (0, 1).
Proof.
  repeat split.
Qed.

Lemma enter_scan_resets (frame : scan_state) :
  enter_scan frame = scan_init.
Proof.
  reflexivity.
Qed.



(* ================================================================== *)
(** ** The statements on the tree [Tree.fs] *)
(* ================================================================== *)

Lemma ratio_policy_on_the_tree :
  (exists c k r,
      fst (calculate_comment_code_ratio Tree.fs Tree.a_py [])
        = (Some c, Some k, Some r)
      /\ (c, k) = line_classifier Tree.a_py_lines
      /\ (0 < k -> r = truediv c k)
      /\ (k = 0 -> r = 0%Q)
      /\ (0 <= r)%Q)
  /\ (0 < code_lines Tree.summary_without_logs ->
      overall_ratio Tree.summary_without_logs
      = truediv (comment_lines Tree.summary_without_logs)
                (code_lines Tree.summary_without_logs))
  /\ (code_lines Tree.summary_without_logs = 0 ->
      overall_ratio Tree.summary_without_logs = 0%Q)
  /\ (0 <= overall_ratio Tree.summary_without_logs)%Q.
Proof.
  apply (ratio_follows_the_zero_code_policy
           Tree.fs Tree.a_py Tree.a_py_lines [] Tree.proj
           (Some Tree.only_log) [] Tree.opened_without_logs
           Tree.summary_without_logs).
  - reflexivity.
  - reflexivity.
Defined.

Lemma read_failure_on_the_tree :
  fs_readlines Tree.fs Tree.gone_py = ReadRaises FileNotFoundError
  /\ fst (calculate_comment_code_ratio Tree.fs Tree.a_py [])
     = (Some (fst (line_classifier Tree.a_py_lines)),
        Some (snd (line_classifier Tree.a_py_lines)),
        Some (file_ratio (scan Tree.a_py_lines)))
  /\ fst (calculate_comment_code_ratio Tree.fs Tree.gone_py [])
     = (None, None, None)
  /\ fst (calculate_comment_code_ratio Tree.fs Tree.empty_py [])
     = (Some 0, Some 0, Some 0%Q)
  /\ fst (calculate_comment_code_ratio Tree.fs Tree.gone_py [])
     <> fst (calculate_comment_code_ratio Tree.fs Tree.empty_py []).
Proof.
  split; [reflexivity|].
  apply (classifier_fails_only_on_read
           Tree.fs Tree.a_py Tree.gone_py Tree.empty_py
           Tree.a_py_lines FileNotFoundError []).
  - reflexivity.
  - reflexivity.
  - reflexivity.
Defined.

Lemma aggregate_on_the_tree :
  fst (analyze_path Tree.fs (Some Tree.only_log) (totals_init, [])
                    Tree.gone_py)
  = totals_init
  /\ fst (analyze_path Tree.fs (Some Tree.only_log) (totals_init, [])
                       Tree.a_py)
     = mk_totals 1 1 1
  /\ fst (analyze_walk Tree.fs (Some Tree.only_log) Tree.w (totals_init, []))
     = mk_totals 2 3 3
  /\ fst (analyze_walk Tree.fs (Some Tree.only_log) Tree.w (totals_init, []))
     = fst (analyze_walk Tree.fs (Some Tree.only_log) Tree.w'
                         (totals_init, []))
  /\ fst (analyze_directory (with_walk Tree.fs Tree.w) Tree.proj
                            (Some Tree.only_log) [])
     = fst (analyze_directory (with_walk Tree.fs Tree.w') Tree.proj
                              (Some Tree.only_log) []).
Proof.
  pose proof (aggregate_sums_the_files_that_were_read
                Tree.fs (Some Tree.only_log) Tree.w Tree.w'
                (totals_init, []) [] Tree.gone_py Tree.a_py Tree.proj
                [Tree.empty_py] FileNotFoundError Tree.a_py_lines
                eq_refl eq_refl eq_refl eq_refl eq_refl eq_refl
                (Permutation_rev (walk_paths Tree.w)))
    as (H1 & _ & H3 & H4 & H5 & H6).
  repeat split; assumption.
Defined.

Lemma excluded_log_on_the_tree :
  In (snd (splitext Tree.b_log)) Tree.only_log
  /\ excluded (Some Tree.only_log) Tree.b_log = true
  /\ analyze_path Tree.fs (Some Tree.only_log) (totals_init, []) Tree.b_log
     = (totals_init, [])
  /\ ~ In Tree.b_log
          (snd (analyze_walk Tree.fs (Some Tree.only_log) Tree.w
                             (totals_init, []))).
Proof.
  assert (Hin : In (snd (splitext Tree.b_log)) Tree.only_log)
    by (left; reflexivity).
  split; [exact Hin|].
  pose proof (excluded_extension_is_skipped_unread
                Tree.fs Tree.only_log Tree.w (totals_init, []) Tree.b_log
                Hin (fun H : In Tree.b_log [] => H))
    as (H1 & H2 & H3 & _).
  repeat split; assumption.
Defined.

Lemma dot_log_on_the_tree :
  In (lit ".log") Tree.only_log
  /\ splitext Tree.dot_log = (Tree.dot_log, [])
  /\ excluded (Some Tree.only_log) Tree.dot_log = false
  /\ analyze_path Tree.fs (Some Tree.only_log) (totals_init, []) Tree.dot_log
     = analyze_path Tree.fs None (totals_init, []) Tree.dot_log
  /\ snd (analyze_path Tree.fs (Some Tree.only_log) (totals_init, [])
                       Tree.dot_log)
     = [Tree.dot_log].
Proof.
  assert (Hsep : ~ In sep (lit "log"))
    by (intro H; repeat (destruct H as [H | H]; [discriminate H|]);
        exact H).
  assert (Hdot : ~ In extsep (lit "log"))
    by (intro H; repeat (destruct H as [H | H]; [discriminate H|]);
        exact H).
  assert (Hempty : ~ In [] Tree.only_log)
    by (intro H; repeat (destruct H as [H | H]; [discriminate H|]);
        exact H).
  pose proof (dot_name_is_not_excluded_by_its_name
                Tree.fs Tree.proj (lit "log") Tree.only_log (totals_init, [])
                Hsep Hdot Hempty eq_refl)
    as (H1 & _ & H3 & H4 & H5 & _).
  split; [left; reflexivity|].
  repeat split; assumption.
Defined.


(* ================================================================== *)
(** ** More on the scan *)
(* ================================================================== *)

(** Destructs every test of a goal that mentions [scan_line] unfolded. *)
Ltac split_tests :=
  repeat match goal with
         | |- context [if ?b then _ else _] => destruct b eqn:?
         end.

(** The counts a line adds do not depend on the counts so far. *)
Lemma scan_line_shift (st : scan_state) (line : str) :
  scan_line st line
  = mk_scan
      (comment_count st
       + comment_count
           (scan_line (mk_scan 0 0 (in_multiline_comment st)) line))
      (code_line_count st
       + code_line_count
           (scan_line (mk_scan 0 0 (in_multiline_comment st)) line))
      (in_multiline_comment
         (scan_line (mk_scan 0 0 (in_multiline_comment st)) line)).
Proof.
  destruct st as [c k f]. unfold scan_line. cbv zeta.
  cbn [comment_count code_line_count in_multiline_comment].
  split_tests;
    cbn [comment_count code_line_count in_multiline_comment];
    f_equal; lia.
Qed.

Lemma scan_shift (lines : list str) :
  forall st : scan_state,
    fold_left scan_line lines st
    = mk_scan
        (comment_count st
         + comment_count
             (fold_left scan_line lines
                        (mk_scan 0 0 (in_multiline_comment st))))
        (code_line_count st
         + code_line_count
             (fold_left scan_line lines
                        (mk_scan 0 0 (in_multiline_comment st))))
        (in_multiline_comment
           (fold_left scan_line lines
                      (mk_scan 0 0 (in_multiline_comment st)))).
Proof.
  induction lines as [|line lines IH]; intro st; cbn [fold_left].
  - destruct st as [c k f]. cbn. f_equal; lia.
  - rewrite (IH (scan_line st line)).
    rewrite (IH (scan_line (mk_scan 0 0 (in_multiline_comment st)) line)).
    rewrite (scan_line_shift st line).
    cbn [comment_count code_line_count in_multiline_comment].
    f_equal; lia.
Qed.

(** While the flag is set, a line that is not blank and starts with no
    triple quote is a comment line and leaves the flag set. *)
Lemma scan_line_inside (st : scan_state) (line : str) :
  in_multiline_comment st = true ->
  starts_triple_quote line = false ->
  scan_line st line
  = if truthy (strip line)
    then mk_scan (comment_count st + 1) (code_line_count st) true
    else st.
Proof.
  unfold starts_triple_quote. intros Hin Htri.
  unfold scan_line. cbv zeta. rewrite Htri, Hin.
  now destruct (truthy (strip line)).
Qed.

(** A line that starts with [/*] starts with no other marker. *)
Lemma block_open_excludes_the_rest (t : str) :
  startswith t block_open = true ->
  truthy t = true
  /\ startswith t triple_single = false
  /\ startswith t triple_double = false
  /\ startswith t hash_mark = false
  /\ startswith t slash_slash = false.
Proof.
  destruct t as [|a [|b t]]; cbn; try discriminate.
  - rewrite andb_false_r. discriminate.
  - unfold char_eqb. intro H.
    apply andb_true_iff in H. destruct H as [Ha H].
    apply andb_true_iff in H. destruct H as [Hb _].
    apply N.eqb_eq in Ha, Hb. subst a b. repeat split.
Qed.

(** X1. Once the flag is set, every line that is not blank is counted as a
    comment line, the code count stands still and the flag stays set, as
    long as no line starts with a triple quote: a closing [*/] does not
    clear the flag. *)
Theorem flag_set_counts_every_line_as_comment
    (st : scan_state) (lines : list str) :
  in_multiline_comment st = true ->
  (forall l, In l lines -> starts_triple_quote l = false) ->
  fold_left scan_line lines st
  = mk_scan (comment_count st + nonblank_lines lines)
            (code_line_count st) true.
Proof.
  revert st. unfold nonblank_lines.
  induction lines as [|l lines IH]; intros st Hin Hno; cbn [fold_left filter].
  - destruct st as [c k f]. cbn in *. subst f. f_equal. lia.
  - rewrite (scan_line_inside st l Hin) by (apply Hno; now left).
    destruct (truthy (strip l)); cbn [List.length].
    + rewrite IH; [| reflexivity | intros x Hx; apply Hno; now right].
      cbn [comment_count code_line_count]. f_equal. lia.
    + apply IH; [assumption | intros x Hx; apply Hno; now right].
Qed.

Lemma flag_set_on_the_c_file :
  fold_left scan_line [lit "two */"; lit "int b;"; []; lit "int c;"]
            (mk_scan 1 1 true)
  = mk_scan (1 + 3) 1 true.
Proof.
  apply (flag_set_counts_every_line_as_comment
           (mk_scan 1 1 true)
           [lit "two */"; lit "int b;"; []; lit "int c;"]).
  - reflexivity.
  - intros l H.
    repeat (destruct H as [H | H]; [subst l; reflexivity|]).
    destruct H.
Defined.

(** X2. A line that starts with [/*], met while the flag is clear, opens a
    comment that no [*/] closes: that line and every later line that is
    not blank are counted as comments and none as code, up to the next
    line that starts with a triple quote. *)
Theorem block_comment_is_never_closed
    (st : scan_state) (line : str) (rest : list str) :
  in_multiline_comment st = false ->
  startswith (strip line) block_open = true ->
  (forall l, In l rest -> starts_triple_quote l = false) ->
  fold_left scan_line (line :: rest) st
  = mk_scan (comment_count st + 1 + nonblank_lines rest)
            (code_line_count st) true.
Proof.
  intros Hclear Hopen Hno. cbn [fold_left].
  destruct (block_open_excludes_the_rest _ Hopen)
    as (Hne & Hts & Htd & Hh & Hs).
  assert (E : scan_line st line
              = mk_scan (comment_count st + 1) (code_line_count st) true).
  { unfold scan_line. cbv zeta.
    rewrite Hne, Hts, Htd, Hclear, Hh, Hs, Hopen. reflexivity. }
  rewrite E.
  now rewrite flag_set_counts_every_line_as_comment.
Qed.

Lemma block_comment_on_the_c_file :
  line_classifier Tree.c_lines = (4, 1).
Proof.
  pose proof (block_comment_is_never_closed
                (mk_scan 0 1 false) (lit "/* one")
                [lit "two */"; lit "int b;"; []; lit "int c;"]
                eq_refl eq_refl) as H.
  unfold line_classifier, scan, Tree.c_lines. cbn [fold_left].
  change (scan_line scan_init (lit "int a;")) with (mk_scan 0 1 false).
  cbn [fold_left] in H. rewrite H; [reflexivity|].
  intros l Hl.
  repeat (destruct Hl as [Hl | Hl]; [subst l; reflexivity|]).
  destruct Hl.
Defined.

(** X3. Blank lines are invisible to the scan: dropping every line that
    is empty once stripped changes neither the counts nor the flag,
    wherever those lines stand. *)
Theorem blank_lines_are_invisible (lines : list str) (st : scan_state) :
  fold_left scan_line (filter (fun l => truthy (strip l)) lines) st
  = fold_left scan_line lines st
  /\ line_classifier (filter (fun l => truthy (strip l)) lines)
     = line_classifier lines.
Proof.
  assert (H : forall s,
             fold_left scan_line (filter (fun l => truthy (strip l)) lines) s
             = fold_left scan_line lines s).
  { induction lines as [|l lines IH]; intro s; cbn [fold_left filter].
    - reflexivity.
    - destruct (truthy (strip l)) eqn:E; cbn [fold_left].
      + apply IH.
      + rewrite (scan_line_blank s l E). apply IH. }
  split; [apply H|].
  unfold line_classifier, scan. now rewrite H.
Qed.

(** X4. A line that starts, once stripped, with [#], [//], [/*] or a
    triple quote is counted as a comment line and never as a code line,
    whatever the flag and the counts. *)
Theorem marker_line_is_a_comment_line (st : scan_state) (line : str) :
  starts_marker line = true ->
  comment_count (scan_line st line) = comment_count st + 1
  /\ code_line_count (scan_line st line) = code_line_count st.
Proof.
  unfold starts_marker, starts_triple_quote. intro H.
  assert (Hne : truthy (strip line) = true).
  { destruct (strip line); [discriminate H | reflexivity]. }
  unfold scan_line. cbv zeta. rewrite Hne. cbn [negb].
  destruct (startswith (strip line) triple_single
            || startswith (strip line) triple_double) eqn:Htri;
    [now split|].
  destruct (in_multiline_comment st); [now split|].
  cbn [orb] in H.
  destruct (startswith (strip line) hash_mark
            || startswith (strip line) slash_slash) eqn:Hline;
    [now split|].
  cbn [orb] in H. rewrite H. now split.
Qed.

Lemma marker_line_on_an_indented_comment :
  comment_count (scan_line (mk_scan 2 5 false) (lit "    // note")) = 2 + 1
  /\ code_line_count (scan_line (mk_scan 2 5 false) (lit "    // note")) = 5.
Proof.
  apply (marker_line_is_a_comment_line
           (mk_scan 2 5 false) (lit "    // note")).
  reflexivity.
Defined.

(** X5. In a file where no line starts, once stripped, with one of the
    five markers, every line that is not blank is a code line: the
    comment count is zero, the flag ends clear and the ratio is zero. *)
Theorem marker_free_file_is_all_code (lines : list str) :
  (forall l, In l lines -> starts_marker l = false) ->
  scan lines = mk_scan 0 (nonblank_lines lines) false
  /\ line_classifier lines = (0, nonblank_lines lines)
  /\ (file_ratio (scan lines) == 0)%Q.
Proof.
  intro Hfree.
  assert (H : forall st,
             in_multiline_comment st = false ->
             fold_left scan_line lines st
             = mk_scan (comment_count st)
                       (code_line_count st + nonblank_lines lines) false).
  { unfold nonblank_lines.
    induction lines as [|l lines IH]; intros st Hclear;
      cbn [fold_left filter].
    - destruct st as [c k f]. cbn in *. subst f. f_equal. lia.
    - assert (Hl : starts_marker l = false) by (apply Hfree; now left).
      unfold starts_marker, starts_triple_quote in Hl.
      apply orb_false_iff in Hl. destruct Hl as [Hl Hopen].
      apply orb_false_iff in Hl. destruct Hl as [Hl Hslash].
      apply orb_false_iff in Hl. destruct Hl as [Htri Hhash].
      assert (E : scan_line st l
                  = if truthy (strip l)
                    then mk_scan (comment_count st) (code_line_count st + 1)
                                 false
                    else st).
      { unfold scan_line. cbv zeta.
        rewrite Htri, Hclear, Hhash, Hslash, Hopen, andb_false_r.
        now destruct (truthy (strip l)). }
      rewrite E.
      destruct (truthy (strip l)); cbn [List.length].
      + rewrite IH; [| intros x Hx; apply Hfree; now right | reflexivity].
        cbn [comment_count code_line_count]. f_equal. lia.
      + apply IH; [intros x Hx; apply Hfree; now right | assumption]. }
  specialize (H scan_init eq_refl). cbn in H.
  unfold line_classifier, scan in *. rewrite H.
  repeat split.
  unfold file_ratio, truediv. cbn [comment_count code_line_count].
  destruct (0 <? nonblank_lines lines); [|reflexivity].
  unfold Qdiv. apply Qmult_0_l.
Qed.

Lemma marker_free_on_plain_text :
  scan [lit "started"; []; lit "stopped"] = mk_scan 0 2 false
  /\ line_classifier [lit "started"; []; lit "stopped"] = (0, 2)
  /\ (file_ratio (scan [lit "started"; []; lit "stopped"]) == 0)%Q.
Proof.
  apply (marker_free_file_is_all_code [lit "started"; []; lit "stopped"]).
  intros l H.
  repeat (destruct H as [H | H]; [subst l; reflexivity|]).
  destruct H.
Defined.

(** X6. The counts of two runs of lines put end to end are the sums of
    their counts, provided the first run leaves the flag clear. *)
Theorem counts_add_when_the_flag_is_clear (lines1 lines2 : list str) :
  in_multiline_comment (scan lines1) = false ->
  line_classifier (lines1 ++ lines2)
  = (fst (line_classifier lines1) + fst (line_classifier lines2),
     snd (line_classifier lines1) + snd (line_classifier lines2))
  /\ in_multiline_comment (scan (lines1 ++ lines2))
     = in_multiline_comment (scan lines2).
Proof.
  intro Hclear. unfold line_classifier, scan in *.
  rewrite fold_left_app.
  rewrite (scan_shift lines2 (fold_left scan_line lines1 scan_init)).
  rewrite Hclear. cbn [fst snd comment_count code_line_count
                       in_multiline_comment].
  split; reflexivity.
Qed.

Lemma counts_add_on_two_runs :
  line_classifier ([lit "# hello"; lit "world"] ++ Tree.c_lines)
  = (fst (line_classifier [lit "# hello"; lit "world"])
     + fst (line_classifier Tree.c_lines),
     snd (line_classifier [lit "# hello"; lit "world"])
     + snd (line_classifier Tree.c_lines))
  /\ in_multiline_comment (scan ([lit "# hello"; lit "world"] ++ Tree.c_lines))
     = in_multiline_comment (scan Tree.c_lines).
Proof.
  apply (counts_add_when_the_flag_is_clear
           [lit "# hello"; lit "world"] Tree.c_lines).
  reflexivity.
Defined.

(** X7. The ratio of a file is zero exactly when the file has no comment
    line or no code line. *)
Theorem file_ratio_zero_iff (st : scan_state) :
  (file_ratio st == 0)%Q
  <-> comment_count st = 0 \/ code_line_count st = 0.
Proof.
  unfold file_ratio, truediv.
  destruct (Nat.ltb_spec 0 (code_line_count st)) as [Hk | Hk].
  - split.
    + intro H. left.
      apply Qmult_integral in H. destruct H as [H | H].
      * unfold Qeq in H. cbn in H. lia.
      * exfalso. destruct (code_line_count st) as [|k]; [lia|].
        unfold Qeq in H. cbn in H. lia.
    + intros [H | H]; [|lia]. rewrite H. unfold Qdiv. apply Qmult_0_l.
  - split; [intros _; right; lia | reflexivity].
Qed.

(* ================================================================== *)
(** ** White space around a line *)
(* ================================================================== *)

Lemma lstrip_spaces (a x : str) :
  all_space a -> lstrip (a ++ x) = lstrip x.
Proof.
  induction 1 as [|c a Hc _ IH]; cbn [app lstrip]; [reflexivity|].
  now rewrite Hc.
Qed.

Lemma lstrip_all_space (b : str) : all_space b -> lstrip b = [].
Proof.
  intro H. rewrite <- (app_nil_r b). now rewrite lstrip_spaces.
Qed.

Lemma lstrip_before_spaces (x b : str) :
  all_space b ->
  lstrip (x ++ b) = lstrip x ++ b
  \/ (lstrip x = [] /\ lstrip (x ++ b) = []).
Proof.
  intro Hb. induction x as [|c x IH]; cbn [app lstrip].
  - right. split; [reflexivity | now apply lstrip_all_space].
  - destruct (isspace c); [exact IH | now left].
Qed.

Lemma rstrip_spaces (x b : str) :
  all_space b -> rstrip (x ++ b) = rstrip x.
Proof.
  intro Hb. unfold rstrip. rewrite rev_app_distr.
  rewrite lstrip_spaces; [reflexivity|].
  now apply Forall_rev.
Qed.

Lemma strip_padded (a x b : str) :
  all_space a -> all_space b -> strip (a ++ x ++ b) = strip x.
Proof.
  intros Ha Hb. unfold strip. rewrite (lstrip_spaces a _ Ha).
  destruct (lstrip_before_spaces x b Hb) as [E | [E1 E2]].
  - rewrite E. now apply rstrip_spaces.
  - now rewrite E1, E2.
Qed.

Lemma lstrip_decompose (s : str) :
  exists a, all_space a /\ s = a ++ lstrip s.
Proof.
  induction s as [|c s (a & Ha & E)]; cbn [lstrip].
  - exists []. split; [constructor | reflexivity].
  - destruct (isspace c) eqn:Hc.
    + exists (c :: a). split; [now constructor|].
      cbn [app]. now rewrite <- E.
    + exists []. split; [constructor | reflexivity].
Qed.

Lemma rstrip_decompose (s : str) :
  exists b, all_space b /\ s = rstrip s ++ b.
Proof.
  destruct (lstrip_decompose (rev s)) as (a & Ha & E).
  exists (rev a). split; [now apply Forall_rev|].
  unfold rstrip. rewrite <- rev_app_distr, <- E.
  now rewrite rev_involutive.
Qed.

(** What [strip] removes is white space at both ends. *)
Lemma strip_decompose (s : str) :
  exists a b, all_space a /\ all_space b /\ s = a ++ strip s ++ b.
Proof.
  destruct (lstrip_decompose s) as (a & Ha & Ea).
  destruct (rstrip_decompose (lstrip s)) as (b & Hb & Eb).
  exists a, b. repeat split; try assumption.
  unfold strip. now rewrite <- Eb.
Qed.

Lemma strip_idempotent (s : str) : strip (strip s) = strip s.
Proof.
  destruct (strip_decompose s) as (a & b & Ha & Hb & E).
  transitivity (strip (a ++ strip s ++ b)).
  - symmetry. now apply strip_padded.
  - now rewrite <- E.
Qed.

Lemma scan_line_strip_eq (st : scan_state) (l l' : str) :
  strip l = strip l' -> scan_line st l = scan_line st l'.
Proof.
  intro H. unfold scan_line. cbv zeta. now rewrite H.
Qed.

Lemma scan_map_strip_eq (f : str -> str) (lines : list str) :
  (forall l, strip (f l) = strip l) ->
  forall st, fold_left scan_line (map f lines) st
             = fold_left scan_line lines st.
Proof.
  intro Hf. induction lines as [|l lines IH]; intro st; cbn [map fold_left].
  - reflexivity.
  - rewrite (scan_line_strip_eq st (f l) l (Hf l)). apply IH.
Qed.

(** X8. White space at the ends of a line never changes how the line is
    classified: putting the same white space before and after every line
    of a file, or stripping every line beforehand, leaves the counts and
    the flag as they are. *)
Theorem indentation_does_not_matter
    (a b : str) (lines : list str) (st : scan_state) :
  all_space a ->
  all_space b ->
  fold_left scan_line (map (fun l => a ++ l ++ b) lines) st
  = fold_left scan_line lines st
  /\ fold_left scan_line (map strip lines) st
     = fold_left scan_line lines st
  /\ line_classifier (map (fun l => a ++ l ++ b) lines)
     = line_classifier lines.
Proof.
  intros Ha Hb.
  assert (H1 : forall s,
             fold_left scan_line (map (fun l => a ++ l ++ b) lines) s
             = fold_left scan_line lines s).
  { apply scan_map_strip_eq. intro l. now apply strip_padded. }
  repeat split.
  - apply H1.
  - apply scan_map_strip_eq. apply strip_idempotent.
  - unfold line_classifier, scan. now rewrite H1.
Qed.

Lemma indentation_on_the_c_file :
  fold_left scan_line
            (map (fun l => [32%N; 9%N] ++ l ++ [13%N; 10%N]) Tree.c_lines)
            scan_init
  = fold_left scan_line Tree.c_lines scan_init
  /\ fold_left scan_line (map strip Tree.c_lines) scan_init
     = fold_left scan_line Tree.c_lines scan_init
  /\ line_classifier
       (map (fun l => [32%N; 9%N] ++ l ++ [13%N; 10%N]) Tree.c_lines)
     = line_classifier Tree.c_lines.
Proof.
  apply (indentation_does_not_matter
           [32%N; 9%N] [13%N; 10%N] Tree.c_lines scan_init).
  - repeat constructor.
  - repeat constructor.
Defined.

(* ================================================================== *)
(** ** The shape of an extension *)
(* ================================================================== *)

Lemma rfind_snoc (p : str) (x c : char) :
  rfind (p ++ [x]) c
  = if char_eqb x c then Z.of_nat (List.length p) else rfind p c.
Proof.
  unfold rfind. rewrite rfind_from_app. cbn [rfind_from].
  now rewrite Z.add_0_l.
Qed.

(** [rfind] finds the last occurrence, or says there is none. *)
Lemma rfind_last (p : str) (c : char) :
  (rfind p c = (-1)%Z /\ ~ In c p)
  \/ (exists a b, p = a ++ c :: b /\ ~ In c b
                  /\ rfind p c = Z.of_nat (List.length a)).
Proof.
  induction p as [|x p IH] using rev_ind.
  - left. split; [reflexivity | intros []].
  - rewrite rfind_snoc. unfold char_eqb.
    destruct (N.eqb_spec x c) as [-> | Hx].
    + right. exists p, []. repeat split. intros [].
    + destruct IH as [[E Hno] | (a & b & -> & Hb & E)].
      * left. split; [exact E|].
        intro H. apply in_app_or in H. destruct H as [H | [H | []]];
          [now apply Hno | now apply Hx].
      * right. exists a, (b ++ [x]). repeat split.
        -- now rewrite <- app_assoc.
        -- intro H. apply in_app_or in H. destruct H as [H | [H | []]];
             [now apply Hb | now apply Hx].
        -- exact E.
Qed.

Lemma rfind_from_ge (p : str) (c : char) :
  forall i found : Z,
    (found <= i)%Z -> (found <= rfind_from i p c found)%Z.
Proof.
  induction p as [|x p IH]; intros i found H; cbn [rfind_from]; [lia|].
  destruct (char_eqb x c).
  - specialize (IH (i + 1)%Z i). lia.
  - specialize (IH (i + 1)%Z found). lia.
Qed.

(** An occurrence bounds [rfind] from below. *)
Lemma rfind_lower (a b : str) (c : char) :
  (Z.of_nat (List.length a) <= rfind (a ++ c :: b) c)%Z.
Proof.
  unfold rfind. rewrite rfind_from_app. cbn [rfind_from].
  unfold char_eqb. rewrite N.eqb_refl. rewrite Z.add_0_l.
  pose proof (rfind_from_ge b c (Z.of_nat (List.length a) + 1)
                (Z.of_nat (List.length a))).
  lia.
Qed.

Lemma splitext_loop_some (n : nat) (p : str) :
  forall (i d : Z) (r : str * str),
    splitext_loop n p i d = Some r ->
    r = (slice_to p d, slice_from p d).
Proof.
  induction n as [|n IH]; intros i d r; cbn [splitext_loop];
    [discriminate|].
  destruct (negb (eqb (slice p i (i + 1)) [extsep])).
  - now intros [= <-].
  - apply IH.
Qed.

(** The two parts [splitext] returns make up the path, and the second is
    empty or is one dot followed by a stem with no dot and no separator. *)
Lemma splitext_shape (p : str) :
  fst (splitext p) ++ snd (splitext p) = p
  /\ (snd (splitext p) = [] \/ extension_shaped (snd (splitext p))).
Proof.
  unfold splitext. cbv zeta.
  destruct (Z.ltb_spec (rfind p sep) (rfind p extsep)) as [Hlt | _];
    [| cbn [fst snd]; rewrite app_nil_r; auto].
  destruct (splitext_loop _ p _ _) as [r|] eqn:E;
    [| cbn [fst snd]; rewrite app_nil_r; auto].
  apply splitext_loop_some in E. subst r. cbn [fst snd].
  unfold slice_to, slice_from. split; [apply firstn_skipn|].
  right.
  destruct (rfind_last p extsep) as [[Ed _] | (a & b & -> & Hb & Ed)].
  - pose proof (rfind_from_ge p sep 0 (-1)) as Hs.
    unfold rfind in *. lia.
  - rewrite Ed, Nat2Z.id.
    rewrite skipn_app, skipn_all, Nat.sub_diag. cbn [app skipn].
    exists b. repeat split; [assumption|].
    intro Hin. apply in_split in Hin. destruct Hin as (b1 & b2 & ->).
    pose proof (rfind_lower (a ++ extsep :: b1) b2 sep) as Hlow.
    rewrite <- app_assoc in Hlow. cbn [app] in Hlow.
    rewrite length_app in Hlow. cbn [List.length] in Hlow. lia.
Qed.

(** X9. The only entries of an exclude list that can exclude a file are
    the empty string and the entries that are a dot followed by a stem
    without dot and without separator.  An entry that is not empty and
    not of that shape, such as [log], [.tar.gz] or [./x], is never equal
    to an extension: a list made of such entries excludes no file, and
    the traversal runs as it does with no exclude list.  The empty entry
    excludes exactly the files that have no extension. *)
Theorem misshapen_entries_exclude_nothing
    (fs : filesystem) (exts : list str) (directory_path : str)
    (tr : trace) :
  (forall e, In e exts -> e <> [] /\ ~ extension_shaped e) ->
  (forall p, excluded (Some exts) p = false)
  /\ analyze_directory fs directory_path (Some exts) tr
     = analyze_directory fs directory_path None tr
  /\ (forall (exts' : list str) (p : str),
         excluded (Some exts') p = true ->
         In [] exts' \/ exists e, In e exts' /\ extension_shaped e)
  /\ (forall p : str,
         excluded (Some [[]]) p = true <-> snd (splitext p) = []).
Proof.
  intro Hbad.
  assert (Hx : forall p, excluded (Some exts) p = false).
  { intro p. destruct (excluded (Some exts) p) eqn:E; [|reflexivity].
    apply excluded_iff in E. destruct (Hbad _ E) as [Hne Hshape].
    destruct (splitext_shape p) as [_ [H | H]]; contradiction. }
  split; [exact Hx|].
  assert (Hp : forall paths acc,
             analyze_paths fs (Some exts) paths acc
             = analyze_paths fs None paths acc).
  { unfold analyze_paths.
    induction paths as [|p paths IH]; intro acc; cbn [fold_left];
      [reflexivity|].
    rewrite IH. f_equal. unfold analyze_path. now rewrite Hx. }
  split.
  { unfold analyze_directory. rewrite !analyze_walk_paths, Hp.
    reflexivity. }
  split.
  - intros exts' p E. apply excluded_iff in E.
    destruct (splitext_shape p) as [_ [H | H]].
    + left. now rewrite H in E.
    + right. now exists (snd (splitext p)).
  - intro p. rewrite excluded_iff. split.
    + intros [H | []]. now symmetry.
    + intro H. left. now symmetry.
Qed.

Lemma misshapen_on_the_tree :
  (forall p, excluded (Some Tree.misshapen) p = false)
  /\ analyze_directory Tree.fs Tree.proj (Some Tree.misshapen) []
     = analyze_directory Tree.fs Tree.proj None [].
Proof.
  assert (Hbad : forall e, In e Tree.misshapen ->
                           e <> [] /\ ~ extension_shaped e).
  { intros e H.
    destruct H as [<- | [<- | [<- | []]]]; (split; [discriminate|]);
      intros (stem & E & Hd & Hs).
    - discriminate E.
    - injection E as <-. apply Hd. vm_compute. intuition.
    - injection E as <-. apply Hs. vm_compute. intuition. }
  pose proof (misshapen_entries_exclude_nothing
                Tree.fs Tree.misshapen Tree.proj [] Hbad)
    as (H1 & H2 & _).
  split; assumption.
Defined.

(* ================================================================== *)
(** ** The exclude list of the command line *)
(* ================================================================== *)

(** X10. With the exclude list [main] builds from the [--exclude] string,
    a file is skipped exactly when its extension is not empty and is
    equal to one of the comma-separated pieces of the string once that
    piece is stripped.  So white space around a piece is ignored, and a
    file without extension can never be excluded from the command line. *)
Theorem command_line_exclusion (s p : str) :
  excluded (exclude_extensions_of s) p = true
  <-> snd (splitext p) <> []
      /\ exists piece, In piece (split_on comma s)
                       /\ strip piece = snd (splitext p).
Proof.
  unfold exclude_extensions_of. destruct s as [|c s]; cbn [truthy].
  - cbn [excluded split_on]. split; [discriminate|].
    intros (Hne & piece & [<- | []] & E). now contradiction Hne.
  - rewrite excluded_iff, in_map_iff. split.
    + intros (piece & E & Hin). apply filter_In in Hin.
      destruct Hin as [Hin Hne]. split.
      * rewrite <- E. now apply truthy_true_iff.
      * now exists piece.
    + intros (Hne & piece & Hin & E). exists piece. split; [exact E|].
      apply filter_In. split; [exact Hin|].
      apply truthy_true_iff. now rewrite E.
Qed.

(* ================================================================== *)
(** ** More on the traversal *)
(* ================================================================== *)

Lemma filter_andb {A : Type} (f g : A -> bool) (l : list A) :
  filter (fun x => f x && g x) l = filter g (filter f l).
Proof.
  induction l as [|x l IH]; cbn [filter]; [reflexivity|].
  destruct (f x); cbn [andb filter]; [|exact IH].
  destruct (g x); now rewrite IH.
Qed.

Lemma filter_length_le {A : Type} (f : A -> bool) (l : list A) :
  List.length (filter f l) <= List.length l.
Proof.
  induction l as [|x l IH]; cbn [filter List.length]; [lia|].
  destruct (f x); cbn [List.length]; lia.
Qed.

(** X11. On a path that is no directory, [analyze_directory] opens no
    file and prints no summary.  On a directory it opens, in the order of
    the walk, exactly the paths that are not excluded and are regular
    files, those whose read raises included; the number of files it
    reports is the number of opened paths that were read, which is at
    most the number of paths of the walk. *)
Theorem analyze_directory_opens_the_eligible_files
    (fs : filesystem) (directory_path : str)
    (exclude_extensions : option (list str)) (tr : trace) :
  let opened :=
    filter (reaches_open fs exclude_extensions)
           (walk_paths (fs_walk fs directory_path)) in
  if fs_isdir fs directory_path
  then snd (analyze_directory fs directory_path exclude_extensions tr)
       = tr ++ opened
       /\ option_map files_analyzed
            (fst (analyze_directory fs directory_path exclude_extensions tr))
          = Some (List.length (filter (read_ok fs) opened))
       /\ List.length (filter (read_ok fs) opened)
          <= List.length (walk_paths (fs_walk fs directory_path))
  else analyze_directory fs directory_path exclude_extensions tr
       = (None, tr).
Proof.
  cbv zeta. unfold analyze_directory.
  destruct (fs_isdir fs directory_path); cbn [negb]; [|reflexivity].
  pose proof (analyze_walk_paths fs exclude_extensions
                (fs_walk fs directory_path) (totals_init, tr)) as Hw.
  pose proof (analyze_paths_totals fs exclude_extensions
                (walk_paths (fs_walk fs directory_path))
                (totals_init, tr)) as Ht.
  pose proof (analyze_paths_trace fs exclude_extensions
                (walk_paths (fs_walk fs directory_path))
                (totals_init, tr)) as Htr.
  rewrite <- Hw in Ht, Htr.
  destruct (analyze_walk fs exclude_extensions (fs_walk fs directory_path)
              (totals_init, tr)) as [t tr'].
  cbn [fst snd option_map files_analyzed] in *.
  repeat split.
  - exact Htr.
  - rewrite Ht. cbn [file_count totals_init]. f_equal.
    unfold counted. now rewrite filter_andb.
  - etransitivity; [apply filter_length_le | apply filter_length_le].
Qed.

Lemma walk_paths_app (w1 w2 : list (str * list str * list str)) :
  walk_paths (w1 ++ w2) = walk_paths w1 ++ walk_paths w2.
Proof.
  unfold walk_paths. apply flat_map_app.
Qed.

(** X12. The totals of a walk made of two walks put end to end are the
    sums of the totals of the two walks, each taken from zero. *)
Theorem totals_add_over_walks
    (fs : filesystem) (exclude_extensions : option (list str))
    (w1 w2 : list (str * list str * list str)) (tr tr1 tr2 : trace) :
  fst (analyze_walk fs exclude_extensions (w1 ++ w2) (totals_init, tr))
  = mk_totals
      (total_comment_lines
         (fst (analyze_walk fs exclude_extensions w1 (totals_init, tr1)))
       + total_comment_lines
           (fst (analyze_walk fs exclude_extensions w2 (totals_init, tr2))))
      (total_code_lines
         (fst (analyze_walk fs exclude_extensions w1 (totals_init, tr1)))
       + total_code_lines
           (fst (analyze_walk fs exclude_extensions w2 (totals_init, tr2))))
      (file_count
         (fst (analyze_walk fs exclude_extensions w1 (totals_init, tr1)))
       + file_count
           (fst (analyze_walk fs exclude_extensions w2 (totals_init, tr2)))).
Proof.
  rewrite !analyze_walk_paths, !analyze_paths_totals, walk_paths_app.
  rewrite filter_app, !map_app, !list_sum_app, length_app.
  cbn [fst total_comment_lines total_code_lines file_count totals_init].
  reflexivity.
Qed.

Lemma sum_filter_le {A : Type} (v : A -> nat) (f g : A -> bool)
    (l : list A) :
  (forall x, f x = true -> g x = true) ->
  list_sum (map v (filter f l)) <= list_sum (map v (filter g l))
  /\ List.length (filter f l) <= List.length (filter g l).
Proof.
  intro Hfg. unfold list_sum.
  induction l as [|x l [IH1 IH2]]; cbn [filter map fold_right List.length];
    [split; lia|].
  destruct (f x) eqn:Ef.
  - rewrite (Hfg x Ef). cbn [map fold_right List.length]. split; lia.
  - destruct (g x); cbn [map fold_right List.length]; split; lia.
Qed.

(** X13. Excluding extensions never raises a total: with any exclude
    list, the comment lines, the code lines and the number of files of a
    traversal are at most those of the same traversal with no exclude
    list. *)
Theorem exclusion_only_lowers_the_totals
    (fs : filesystem) (exclude_extensions : option (list str))
    (w : list (str * list str * list str)) (tr tr' : trace) :
  total_comment_lines
    (fst (analyze_walk fs exclude_extensions w (totals_init, tr)))
  <= total_comment_lines (fst (analyze_walk fs None w (totals_init, tr')))
  /\ total_code_lines
       (fst (analyze_walk fs exclude_extensions w (totals_init, tr)))
     <= total_code_lines (fst (analyze_walk fs None w (totals_init, tr')))
  /\ file_count
       (fst (analyze_walk fs exclude_extensions w (totals_init, tr)))
     <= file_count (fst (analyze_walk fs None w (totals_init, tr'))).
Proof.
  rewrite !analyze_walk_paths, !analyze_paths_totals.
  cbn [fst total_comment_lines total_code_lines file_count totals_init].
  assert (H : forall p, counted fs exclude_extensions p = true ->
                        counted fs None p = true).
  { intros p. unfold counted, reaches_open. cbn [excluded negb andb].
    intro Hp. apply andb_true_iff in Hp. destruct Hp as [Hp ->].
    apply andb_true_iff in Hp. destruct Hp as [_ ->]. reflexivity. }
  repeat split.
  - apply (sum_filter_le (fun p => fst (file_counts fs p)) _ _ _ H).
  - apply (sum_filter_le (fun p => snd (file_counts fs p)) _ _ _ H).
  - apply (sum_filter_le (fun p => 0) _ _ _ H).
Qed.

(* ================================================================== *)
(** ** [main] *)
(* ================================================================== *)


(** X15. When the path is a file that can be read, [main] reports the
    counts and the ratio of that file and opens nothing else, whatever
    the [--exclude] string: a file named on the command line is analysed
    even when its own extension is excluded. *)
Theorem main_on_a_file_ignores_the_exclude_list
    (fs : filesystem) (path exclude : str) (verbose : bool)
    (lines : list str) (tr : trace) :
  fs_isfile fs path = true ->
  fs_readlines fs path = ReadOk lines ->
  main fs (mk_args path exclude verbose) tr
  = ((Some (FileReport path (fst (line_classifier lines))
                       (snd (line_classifier lines))
                       (file_ratio (scan lines))),
      Returns),
     tr ++ [path]).
Proof.
  intros Hf Hr. unfold main. cbv zeta. cbn [arg_path arg_exclude].
  rewrite Hf, (calculate_on_lines _ _ _ _ Hr). reflexivity.
Qed.

Lemma main_on_an_excluded_log_file :
  main Tree.fs (mk_args Tree.b_log (lit ".log") false) []
  = ((Some (FileReport Tree.b_log 0 2 (truediv 0 2)), Returns),
     [Tree.b_log]).
Proof.
  apply (main_on_a_file_ignores_the_exclude_list
           Tree.fs Tree.b_log (lit ".log") false
           [lit "started"; lit "stopped"] []).
  - reflexivity.
  - reflexivity.
Defined.

(* ================================================================== *)
(** ** The flag and the triple quotes *)
(* ================================================================== *)

Lemma scan_line_flag (st : scan_state) (line : str) :
  startswith (strip line) block_open = false ->
  in_multiline_comment (scan_line st line)
  = xorb (in_multiline_comment st) (starts_triple_quote line).
Proof.
  intro Hopen. unfold starts_triple_quote, scan_line. cbv zeta.
  rewrite Hopen.
  destruct (strip line) as [|c t] eqn:E; cbn [truthy negb].
  - cbn. now rewrite xorb_false_r.
  - destruct (startswith (c :: t) triple_single
              || startswith (c :: t) triple_double);
      cbn [in_multiline_comment].
    + now destruct (in_multiline_comment st).
    + rewrite xorb_false_r.
      destruct (in_multiline_comment st) eqn:Hin;
        cbn [in_multiline_comment]; [reflexivity|].
      rewrite andb_false_r.
      now destruct (startswith (c :: t) hash_mark
                    || startswith (c :: t) slash_slash).
Qed.

(** X16. In a file where no line starts with [/*], the flag is flipped by
    the lines that start with a triple quote and by nothing else: after
    the scan it differs from its starting value exactly when the number
    of such lines is odd.  A docstring opened and closed on one line
    counts once, so it leaves the flag set. *)
Theorem flag_is_the_parity_of_triple_quote_lines
    (lines : list str) (st : scan_state) :
  (forall l, In l lines -> startswith (strip l) block_open = false) ->
  in_multiline_comment (fold_left scan_line lines st)
  = xorb (in_multiline_comment st)
         (Nat.odd (List.length (filter starts_triple_quote lines))).
Proof.
  revert st. induction lines as [|l lines IH]; intros st Hno;
    cbn [fold_left filter List.length].
  - cbn. now rewrite xorb_false_r.
  - rewrite IH by (intros x Hx; apply Hno; now right).
    rewrite scan_line_flag by (apply Hno; now left).
    destruct (starts_triple_quote l); cbn [List.length].
    + rewrite Nat.odd_succ, <- Nat.negb_odd.
      destruct (in_multiline_comment st), (Nat.odd _); reflexivity.
    + now rewrite xorb_false_r.
Qed.

Lemma one_line_docstring_leaves_the_flag_set :
  in_multiline_comment
    (fold_left scan_line [lit "'''doc'''"; lit "x = 1"] scan_init)
  = xorb false
         (Nat.odd (List.length
                     (filter starts_triple_quote
                             [lit "'''doc'''"; lit "x = 1"]))).
Proof.
  apply (flag_is_the_parity_of_triple_quote_lines
           [lit "'''doc'''"; lit "x = 1"] scan_init).
  intros l H.
  repeat (destruct H as [H | H]; [subst l; reflexivity|]).
  destruct H.
Defined.
